(** * series-finder: the client-side API access layer

    A shallow embedding of [frontend/src/services/apiService.ts] (the request
    engine with its retry loop, and the typed facade built on it) and of
    [frontend/src/hooks/useApi.ts] (the stateful call adapter), followed by
    the properties of that code.

    Conventions of the embedding:
    - JavaScript numbers that the code only uses as integers (HTTP statuses,
      the attempt counter, delays in milliseconds) are [Z];
    - a plain object used as a dictionary of headers is a [gmap string string];
      objects that are serialised (request payloads, parsed JSON) keep their
      keys in insertion order and are association lists;
    - an [async] function is a computation over the trace of observable
      events (transport invocations and timers) which either returns a value
      or throws one. *)

From Stdlib Require Import ZArith String Ascii List Bool Lia DecimalString.
From stdpp Require Import base gmap strings list.

Local Open Scope string_scope.
Local Open Scope Z_scope.

(** ** JavaScript values *)

(** The values of JSON, and [undefined]. An object is a plain object (its
    prototype is [Object.prototype]) given by its own members; [VNum n] is the
    number [n], for the integers a JavaScript number holds exactly and prints
    in full: those up to [2 ^ 53] in absolute value. *)
#[warnings="-register-all"] Inductive jsval : Type :=
| VUndefined
| VNull
| VBool (b : bool)
| VNum (n : Z)
| VStr (s : string)
| VArr (items : list jsval)
| VObj (props : list (string * jsval)).

(** The three error classes declared in apiService.ts. *)
Inductive CustomError : Type :=
| ApiError (status : Z) (statusText message endpoint : string)
| NetworkError (message endpoint : string)
| ValidationError (message : string) (field : option string).

(** Everything else that can be thrown or passed as [unknown]: a [TypeError],
    any other [Error] instance (with its [name]), or a value that is no
    [Error] at all. *)
Inductive ForeignValue : Type :=
| TypeError (message : string)
| PlainError (name message : string)
| NonError (v : jsval).

Inductive Value : Type :=
| Custom (e : CustomError)
| Foreign (e : ForeignValue).

(** [new Error(message)] *)
Definition new_Error (message : string) : Value :=
  Foreign (PlainError "Error" message).

Module Js.

(** ToBoolean *)
Definition truthy (v : jsval) : bool :=
  match v with
  | VUndefined | VNull => false
  | VBool b => b
  | VNum n => negb (n =? 0)
  | VStr s => negb (String.eqb s "")
  | VArr _ | VObj _ => true
  end.

(** The decimal text of an integer: what ToString gives for the integers a
    number holds exactly, up to [2 ^ 53] in absolute value. Beyond them
    JavaScript prints the shortest digits that identify the number, from
    [10 ^ 21] on in exponent form, which this function does not reproduce:
    the properties below depend on the text of no number but a status and a
    clock reading. *)
Definition string_of_Z (n : Z) : string := NilZero.string_of_int (Z.to_int n).

(** [Object.prototype.hasOwnProperty.call(o, k)] *)
Definition has_own (props : list (string * jsval)) (k : string) : bool :=
  existsb (fun kv => String.eqb (fst kv) k) props.

(** The message of the [TypeError] that ToString throws on an object it
    cannot convert. The text depends on the engine; this is the one of V8,
    the engine of the test suite. *)
Definition cannot_convert : string := "Cannot convert object to primitive value".

(** ToString, as applied by the [Error] constructor to its argument; [None]
    when the conversion throws a [TypeError]. A plain object is converted by
    the [toString] it finds: [Object.prototype.toString], unless the object
    has a member [toString] of its own, which is no function (it was parsed
    from JSON), and then neither [toString] nor [valueOf] yields a primitive.
    An array is converted by [join], which converts each element other than
    [null] and [undefined]. *)
Fixpoint ToString (v : jsval) : option string :=
  match v with
  | VUndefined => Some "undefined"
  | VNull => Some "null"
  | VBool true => Some "true"
  | VBool false => Some "false"
  | VNum n => Some (string_of_Z n)
  | VStr s => Some s
  | VArr items =>
      (fix join (l : list jsval) : option string :=
         match l with
         | [] => Some ""
         | x :: rest =>
             match (match x with VUndefined | VNull => Some "" | _ => ToString x end) with
             | None => None
             | Some sx =>
                 match rest with
                 | [] => Some sx
                 | _ :: _ =>
                     match join rest with
                     | None => None
                     | Some srest => Some (sx ++ "," ++ srest)
                     end
                 end
             end
         end) items
  | VObj props => if has_own props "toString" then None else Some "[object Object]"
  end.

(** Whether ToString converts the value, rather than throwing. *)
Definition convertible (v : jsval) : bool :=
  match ToString v with Some _ => true | None => false end.

(** [s.includes(pat)] *)
Fixpoint includes (s pat : string) : bool :=
  if String.prefix pat s then true
  else match s with
       | EmptyString => false
       | String _ s' => includes s' pat
       end.

(** The value of the member [k] among the members of an object's own;
    [undefined] when the object has no such member of its own. *)
Fixpoint lookup_prop (props : list (string * jsval)) (k : string) : jsval :=
  match props with
  | [] => VUndefined
  | (k', v) :: rest => if String.eqb k' k then v else lookup_prop rest k
  end.

(** The members every plain object inherits from [Object.prototype]: the
    methods of the standard and of its annex B, and the accessor
    [__proto__]. Each holds a function, or the prototype object itself. *)
Definition Object_prototype_members : list string :=
  ["constructor"; "hasOwnProperty"; "isPrototypeOf"; "propertyIsEnumerable";
   "toLocaleString"; "toString"; "valueOf"; "__proto__";
   "__defineGetter__"; "__defineSetter__"; "__lookupGetter__"; "__lookupSetter__"].

Definition inherited (k : string) : bool :=
  existsb (String.eqb k) Object_prototype_members.

(** ToBoolean of [o[k]] on a plain object: the member of its own if it has
    one, else the member it inherits, which is truthy. *)
Definition member_truthy (props : list (string * jsval)) (k : string) : bool :=
  if has_own props k then truthy (lookup_prop props k) else inherited k.

(** [Object.keys(o)] *)
Definition Object_keys (props : list (string * jsval)) : list string :=
  map fst props.

(** [[a, b, ...].includes(x)] on numbers *)
Definition array_includes (l : list Z) (x : Z) : bool :=
  existsb (Z.eqb x) l.

Definition hex_digit (n : N) : ascii :=
  ascii_of_N (if (n <? 10)%N then 48 + n else 55 + n).

(** The characters [encodeURIComponent] leaves alone:
    [A-Z a-z 0-9 - _ . ! ~ * ' ( )]. *)
Definition uri_unreserved (c : ascii) : bool :=
  let n := N_of_ascii c in
  ((65 <=? n) && (n <=? 90) || (97 <=? n) && (n <=? 122) || (48 <=? n) && (n <=? 57)
   || (n =? 45) || (n =? 95) || (n =? 46) || (n =? 33) || (n =? 126) || (n =? 42)
   || (n =? 39) || (n =? 40) || (n =? 41))%N.

(** [encodeURIComponent(s)], on a string held as its UTF-8 bytes: every
    byte outside the unreserved set becomes [%XX]. *)
Fixpoint encodeURIComponent (s : string) : string :=
  match s with
  | EmptyString => EmptyString
  | String c rest =>
      if uri_unreserved c then String c (encodeURIComponent rest)
      else
        let n := N_of_ascii c in
        String "%" (String (hex_digit (n / 16)) (String (hex_digit (n mod 16))
                                                   (encodeURIComponent rest)))
  end.

End Js.

(** ** Error utilities of apiService.ts *)

(** [getErrorMessage(error: unknown): string] *)
Definition getErrorMessage (error : Value) : string :=
  match error with
  | Custom (ValidationError message _) => message
  | Custom (NetworkError _ _) =>
      "Unable to connect to the server. Please check your internet connection and try again."
  | Custom (ApiError status _ message _) =>
      if status =? 401 then "Please log in to continue."
      else if status =? 403 then "You do not have permission to perform this action."
      else if status =? 404 then "The requested resource was not found."
      else if status =? 429 then "Too many requests. Please wait a moment and try again."
      else if status =? 500 then "A server error occurred. Please try again later."
      else if (status =? 502) || (status =? 503) || (status =? 504)
      then "The service is temporarily unavailable. Please try again later."
      else if String.eqb message "" then "An unexpected error occurred." else message
  | Foreign (TypeError message) => message
  | Foreign (PlainError _ message) => message
  | Foreign (NonError _) => "An unexpected error occurred."
  end.

(** [isRetryableError(error: unknown): boolean] *)
Definition isRetryableError (error : Value) : bool :=
  match error with
  | Custom (NetworkError _ _) => true
  | Custom (ApiError status _ _ _) => Js.array_includes [408; 429; 502; 503; 504] status
  | _ => false
  end.

(** ** The transport and the trace of observable events *)

(** The serialised request body. The text produced by [JSON.stringify] is
    never inspected by the client, so it is kept as the object it encodes. *)
Inductive JsonText : Type :=
| JSON_stringify (o : list (string * jsval)).

(** [RequestInit], restricted to the members this code base sets. An absent
    member is [None]. *)
Record RequestInit : Type := mkInit {
  method : option string;
  headers : option (gmap string string);
  body : option JsonText
}.

(** [{}] *)
Definition no_options : RequestInit :=
  {| method := None; headers := None; body := None |}.

(** Object spread [{ ...base, ...over }] on [RequestInit]: each member present
    in [over] replaces the one of [base]. *)
Definition spread_init (base over : RequestInit) : RequestInit :=
  {| method := match method over with Some m => Some m | None => method base end;
     headers := match headers over with Some h => Some h | None => headers base end;
     body := match body over with Some b => Some b | None => body base end |}.

(** What [await response.json()] does. *)
Inductive JsonOutcome : Type :=
| JsonResolves (v : jsval)
| JsonRejects (e : ForeignValue).

(** The members of a fetch [Response] read by the client;
    [content_type] is [response.headers.get('content-type')]. *)
Record Response : Type := mkResponse {
  ok : bool;
  status : Z;
  statusText : string;
  content_type : option string;
  json : JsonOutcome
}.

(** What [await fetch(url, init)] does: the promise resolves to a response or
    rejects. The transport rejects with values of its own, never with an
    instance of the client's error classes. *)
Inductive FetchOutcome : Type :=
| Resolves (r : Response)
| Rejects (e : ForeignValue).

(** The transport answers an invocation from the number of invocations made
    before it and from the request. *)
Definition Transport : Type := nat -> string -> RequestInit -> FetchOutcome.

Inductive Event : Type :=
| Fetch (url : string) (init : RequestInit)
| SetTimeout (ms : Z).

Definition World : Type := list Event.

(** Number of transport invocations in a trace. *)
Fixpoint fetch_count (w : World) : nat :=
  match w with
  | [] => 0%nat
  | Fetch _ _ :: rest => S (fetch_count rest)
  | SetTimeout _ :: rest => fetch_count rest
  end.

(** The timers of a trace, in order, in milliseconds. *)
Fixpoint timers (w : World) : list Z :=
  match w with
  | [] => []
  | SetTimeout ms :: rest => ms :: timers rest
  | Fetch _ _ :: rest => timers rest
  end.

(** ** Asynchronous computations *)

Inductive Completion (A : Type) : Type :=
| Returned (a : A)
| Thrown (e : Value).
Arguments Returned {A} a.
Arguments Thrown {A} e.

Definition M (A : Type) : Type := World -> Completion A * World.

Definition ret {A} (a : A) : M A := fun w => (Returned a, w).

Definition throw {A} (e : Value) : M A := fun w => (Thrown e, w).

Definition bind {A B} (m : M A) (k : A -> M B) : M B :=
  fun w => match m w with
           | (Returned a, w') => k a w'
           | (Thrown e, w') => (Thrown e, w')
           end.

(** [try { m } catch (error) { handler }] *)
Definition try_catch {A} (m : M A) (handler : Value -> M A) : M A :=
  fun w => match m w with
           | (Returned a, w') => (Returned a, w')
           | (Thrown e, w') => handler e w'
           end.

Notation "x <- m ;; k" := (bind m (fun x => k))
  (at level 100, m at next level, right associativity).
Notation "m ;;; k" := (bind m (fun _ => k))
  (at level 100, right associativity).

Inductive LoopStep : Type :=
| Continue
| Return (v : jsval).

(** [for (let attempt = first; attempt <= last; attempt++) { body }] over the
    list of the values [attempt] takes, for a body that either continues,
    returns from the enclosing function, or throws. Falling off the end of the
    loop is the end of the function: it returns [undefined]. *)
Fixpoint for_attempts (body : Z -> M LoopStep) (attempts : list Z) : M jsval :=
  match attempts with
  | [] => ret VUndefined
  | attempt :: rest =>
      step <- body attempt ;;
      match step with
      | Continue => for_attempts body rest
      | Return v => ret v
      end
  end.

(** [instanceof] tests and the [message] member of a caught value. *)
Definition instanceof_TypeError (error : Value) : bool :=
  match error with Foreign (TypeError _) => true | _ => false end.

Definition instanceof_Error (error : Value) : bool :=
  match error with Foreign (NonError _) => false | _ => true end.

Definition instanceof_ApiError (error : Value) : bool :=
  match error with Custom (ApiError _ _ _ _) => true | _ => false end.

Definition instanceof_NetworkError (error : Value) : bool :=
  match error with Custom (NetworkError _ _) => true | _ => false end.

Definition instanceof_ValidationError (error : Value) : bool :=
  match error with Custom (ValidationError _ _) => true | _ => false end.

Definition error_message (error : Value) : string :=
  match error with
  | Custom (ApiError _ _ message _) => message
  | Custom (NetworkError message _) => message
  | Custom (ValidationError message _) => message
  | Foreign (TypeError message) => message
  | Foreign (PlainError _ message) => message
  | Foreign (NonError _) => ""
  end.

(** [error.status], read after [error instanceof ApiError] *)
Definition error_status (error : Value) : Z :=
  match error with Custom (ApiError status _ _ _) => status | _ => 0 end.

(** ** The request engine: [ApiService.request] and its helpers *)

(** [import.meta.env] *)
Record Env : Type := mkEnv { PROD : bool; MODE : string }.

Section ApiService.

Variable env : Env.
Variable transport : Transport.

Definition API_BASE_URL : string :=
  if PROD env then "https://your-function-app.azurewebsites.net/api"
  else "http://localhost:7071/api".

(** [await fetch(url, init)] *)
Definition fetch (url : string) (init : RequestInit) : M Response :=
  fun w =>
    match transport (fetch_count w) url init with
    | Resolves r => (Returned r, (w ++ [Fetch url init])%list)
    | Rejects e => (Thrown (Foreign e), (w ++ [Fetch url init])%list)
    end.

(** [await response.json()] *)
Definition response_json (response : Response) : M jsval :=
  match json response with
  | JsonResolves v => ret v
  | JsonRejects e => throw (Foreign e)
  end.

(** [v[k]] for a member name [k] that no prototype defines (the engine reads
    [message] and [error]): a [TypeError] on [null] and [undefined], the
    member of its own on an object, [undefined] on arrays and other
    primitives. *)
Definition get_member (v : jsval) (k : string) : M jsval :=
  match v with
  | VUndefined => throw (Foreign (TypeError ("Cannot read properties of undefined (reading '" ++ k ++ "')")))
  | VNull => throw (Foreign (TypeError ("Cannot read properties of null (reading '" ++ k ++ "')")))
  | VObj props => ret (Js.lookup_prop props k)
  | _ => ret VUndefined
  end.

(** [private delay(ms)]: the timer is a tenth of [ms] under test. The
    quotient is exact on the multiples of ten the engine passes. *)
Definition delay (ms : Z) : M unit :=
  let testDelay := if String.eqb (MODE env) "test" then ms / 10 else ms in
  fun w => (Returned tt, (w ++ [SetTimeout testDelay])%list).

(** [{ 'Content-Type': 'application/json', ...options.headers }] *)
Definition default_headers (options : RequestInit) : gmap string string :=
  match headers options with
  | Some h => h ∪ {[ "Content-Type" := "application/json" ]}
  | None => {[ "Content-Type" := "application/json" ]}
  end.

(** The second argument of [fetch]:
    [{ headers: { 'Content-Type': 'application/json', ...options.headers }, ...options }] *)
Definition fetch_init (options : RequestInit) : RequestInit :=
  spread_init
    {| method := None; headers := Some (default_headers options); body := None |}
    options.

(** The backoff shared by the three retried cases:
    [if (attempt < retries) { await this.delay(Math.pow(2, attempt) * 1000); continue; } throw exhausted] *)
Definition retry_or_throw (retries attempt : Z) (exhausted : Value) : M LoopStep :=
  if attempt <? retries
  then delay (2 ^ attempt * 1000) ;;; ret Continue
  else throw exhausted.

(** Lines 109-116: the value of [errorMessage] for a failed response. It is
    the template string, or whatever value the body holds under [message] or
    [error]: nothing converts it here. *)
Definition read_error_message (response : Response) : M jsval :=
  let errorMessage :=
    VStr ("Request failed: " ++ Js.string_of_Z (status response) ++ " "
          ++ statusText response) in
  try_catch
    (errorData <- response_json response ;;
     message <- get_member errorData "message" ;;
     if Js.truthy message then ret message
     else
       error <- get_member errorData "error" ;;
       if Js.truthy error then ret error
       else ret errorMessage)
    (fun _ => ret errorMessage).

(** The [super(message)] of the error classes, on a message of any type: the
    [Error] constructor converts it with ToString, and the [TypeError] of a
    failed conversion is thrown where the error was being built. *)
Definition message_text (message : jsval) : M string :=
  match Js.ToString message with
  | Some text => ret text
  | None => throw (Foreign (TypeError Js.cannot_convert))
  end.

(** The [try] block of the loop of [request]: lines 89-154. *)
Definition request_try (endpoint : string) (options : RequestInit)
    (retries attempt : Z) : M LoopStep :=
  let url := API_BASE_URL ++ endpoint in
  response <- fetch url (fetch_init options) ;;
  if ok response then
    match content_type response with
    | Some contentType =>
        if Js.truthy (VStr contentType) && Js.includes contentType "application/json"
        then v <- response_json response ;; ret (Return v)
        else ret (Return VNull)
    | None => ret (Return VNull)
    end
  else
    errorMessage <- read_error_message response ;;
    let st := status response in
    if st =? 400 then
      text <- message_text errorMessage ;;
      throw (Custom (ValidationError text None))
    else if st =? 401 then
      throw (Custom (ApiError 401 "Unauthorized" "Authentication required" endpoint))
    else if st =? 403 then
      throw (Custom (ApiError 403 "Forbidden" "Access denied" endpoint))
    else if st =? 404 then
      throw (Custom (ApiError 404 "Not Found" ("Resource not found: " ++ endpoint) endpoint))
    else if st =? 409 then
      text <- message_text errorMessage ;;
      throw (Custom (ApiError st (statusText response) text endpoint))
    else if st =? 429 then
      retry_or_throw retries attempt
        (Custom (ApiError 429 "Too Many Requests" "Rate limit exceeded" endpoint))
    else if st =? 500 then
      throw (Custom (ApiError 500 "Internal Server Error" "Server error occurred" endpoint))
    else if (st =? 502) || (st =? 503) || (st =? 504) then
      retry_or_throw retries attempt
        (Custom (ApiError st (statusText response) "Service temporarily unavailable" endpoint))
    else
      text <- message_text errorMessage ;;
      throw (Custom (ApiError st (statusText response) text endpoint)).

(** The [catch (error)] clause of the loop of [request]: lines 155-173. *)
Definition request_catch (endpoint : string) (retries attempt : Z) (error : Value)
    : M LoopStep :=
  if instanceof_TypeError error && Js.includes (error_message error) "fetch" then
    retry_or_throw retries attempt
      (Custom (NetworkError
                 "Network connection failed. Please check your internet connection."
                 endpoint))
  else if instanceof_ApiError error || instanceof_ValidationError error
          || instanceof_NetworkError error then
    throw error
  else
    throw (new_Error ("Unexpected error: " ++
                      (if instanceof_Error error then error_message error
                       else "Unknown error"))).

(** One iteration of the loop of [request]. *)
Definition request_attempt (endpoint : string) (options : RequestInit)
    (retries attempt : Z) : M LoopStep :=
  try_catch (request_try endpoint options retries attempt)
            (request_catch endpoint retries attempt).

(** [private async request(endpoint, options = {}, retries = 3)] *)
Definition request (endpoint : string) (options : RequestInit) (retries : Z) : M jsval :=
  for_attempts (request_attempt endpoint options retries) (seqZ 0 (retries + 1)).

(** ** The typed facade: the public methods of [ApiService] *)

Definition validation_error (message : string) : Value :=
  Custom (ValidationError message None).

(** [!s] on a string argument *)
Definition blank (s : string) : bool := negb (Js.truthy (VStr s)).

(** [private validateRequired(data, requiredFields)] *)
Fixpoint validateRequired (data : list (string * jsval)) (requiredFields : list string)
    : M unit :=
  match requiredFields with
  | [] => ret tt
  | field :: rest =>
      if negb (Js.member_truthy data field)
      then throw (Custom (ValidationError (field ++ " is required") (Some field)))
      else validateRequired data rest
  end.

(** [catch] clause shared by the lookups of a user:
    [if (error instanceof ApiError && error.status === 404) throw new ValidationError(message); throw error] *)
Definition remap_status (st : Z) (message : string) (error : Value) : M jsval :=
  if instanceof_ApiError error && (error_status error =? st)
  then throw (validation_error message)
  else throw error.

(** [catch] clause of the two list reads:
    [if (error instanceof ApiError && error.status === 404) return []; throw error] *)
Definition empty_on_404 (error : Value) : M jsval :=
  if instanceof_ApiError error && (error_status error =? 404)
  then ret (VArr [])
  else throw error.

Definition with_method (m : string) : RequestInit :=
  {| method := Some m; headers := None; body := None |}.

Definition with_body (m : string) (payload : list (string * jsval)) : RequestInit :=
  {| method := Some m; headers := None; body := Some (JSON_stringify payload) |}.

(** *** User API methods *)

Definition createUser (userData : list (string * jsval)) : M jsval :=
  validateRequired userData ["username"; "email"; "displayName"] ;;;
  try_catch (request "/users" (with_body "POST" userData) 3)
            (remap_status 409 "Username or email already exists").

Definition getUser (id : string) : M jsval :=
  if blank id then throw (validation_error "User ID is required")
  else try_catch (request ("/users/" ++ id) no_options 3)
                 (remap_status 404 "User not found").

Definition getUserByEmail (email : string) : M jsval :=
  if blank email then throw (validation_error "Email is required")
  else try_catch (request ("/users/email/" ++ Js.encodeURIComponent email) no_options 3)
                 (remap_status 404 "User with this email not found").

Definition getUserByUsername (username : string) : M jsval :=
  if blank username then throw (validation_error "Username is required")
  else try_catch (request ("/users/username/" ++ Js.encodeURIComponent username) no_options 3)
                 (remap_status 404 "User with this username not found").

Definition updateUser (id : string) (updates : list (string * jsval)) : M jsval :=
  if blank id then throw (validation_error "User ID is required")
  else if negb (Js.truthy (VObj updates)) || (length (Js.Object_keys updates) =? 0)%nat
  then throw (validation_error "Update data is required")
  else request ("/users/" ++ id) (with_body "PUT" updates) 3.

Definition deleteUser (id : string) : M jsval :=
  if blank id then throw (validation_error "User ID is required")
  else request ("/users/" ++ id) (with_method "DELETE") 3.

(** *** Series API methods *)

Definition createSeries (seriesData : list (string * jsval)) : M jsval :=
  validateRequired seriesData ["title"; "userId"; "genre"] ;;;
  request "/series" (with_body "POST" seriesData) 3.

Definition getSeries (id userId : string) : M jsval :=
  if blank id || blank userId
  then throw (validation_error "Series ID and User ID are required")
  else request ("/series/" ++ id ++ "/" ++ userId) no_options 3.

Definition getUserSeries (userId : string) : M jsval :=
  if blank userId then throw (validation_error "User ID is required")
  else try_catch (request ("/series/user/" ++ userId) no_options 3) empty_on_404.

(** [userId?: string]: [None] is an omitted argument. *)
Definition getRecommendations (userId : option string) : M jsval :=
  let endpoint :=
    match userId with
    | Some u => if Js.truthy (VStr u) then "/series/recommendations/" ++ u
                else "/series/recommendations"
    | None => "/series/recommendations"
    end in
  try_catch (request endpoint no_options 3) empty_on_404.

Definition updateSeries (id userId : string) (updates : list (string * jsval)) : M jsval :=
  if blank id || blank userId
  then throw (validation_error "Series ID and User ID are required")
  else if negb (Js.truthy (VObj updates)) || (length (Js.Object_keys updates) =? 0)%nat
  then throw (validation_error "Update data is required")
  else request ("/series/" ++ id ++ "/" ++ userId) (with_body "PUT" updates) 3.

Definition deleteSeries (id userId : string) : M jsval :=
  if blank id || blank userId
  then throw (validation_error "Series ID and User ID are required")
  else request ("/series/" ++ id ++ "/" ++ userId) (with_method "DELETE") 3.

Definition likeSeries (seriesId seriesUserId userId : string) : M jsval :=
  if blank seriesId || blank seriesUserId || blank userId
  then throw (validation_error "Series ID, Series User ID, and User ID are required")
  else request ("/series/" ++ seriesId ++ "/" ++ seriesUserId ++ "/like")
               (with_body "POST" [("userId", VStr userId)]) 3.

Definition unlikeSeries (seriesId seriesUserId userId : string) : M jsval :=
  if blank seriesId || blank seriesUserId || blank userId
  then throw (validation_error "Series ID, Series User ID, and User ID are required")
  else request ("/series/" ++ seriesId ++ "/" ++ seriesUserId ++ "/unlike")
               (with_body "POST" [("userId", VStr userId)]) 3.

(** *** Friends API methods *)

Definition getFriends (userId : string) : M jsval :=
  request ("/users/" ++ userId ++ "/friends") no_options 3.

Definition addFriend (userId friendId : string) : M jsval :=
  request ("/users/" ++ userId ++ "/friends/" ++ friendId) (with_method "POST") 3.

Definition removeFriend (userId friendId : string) : M jsval :=
  request ("/users/" ++ userId ++ "/friends/" ++ friendId) (with_method "DELETE") 3.

Definition getFriendRequests (userId : string) : M jsval :=
  request ("/users/" ++ userId ++ "/friend-requests") no_options 3.

Definition acceptFriendRequest (userId friendId : string) : M jsval :=
  request ("/users/" ++ userId ++ "/friend-requests/" ++ friendId ++ "/accept")
          (with_method "POST") 3.

Definition rejectFriendRequest (userId friendId : string) : M jsval :=
  request ("/users/" ++ userId ++ "/friend-requests/" ++ friendId ++ "/reject")
          (with_method "POST") 3.

(** *** Favorites API methods *)

Definition createFavoriteList (userId : string) (listData : list (string * jsval))
    : M jsval :=
  request ("/users/" ++ userId ++ "/favorites") (with_body "POST" listData) 3.

Definition getFavoriteLists (userId : string) : M jsval :=
  request ("/users/" ++ userId ++ "/favorites") no_options 3.

Definition getFavoriteList (userId listId : string) : M jsval :=
  request ("/users/" ++ userId ++ "/favorites/" ++ listId) no_options 3.

Definition updateFavoriteList (userId listId : string) (updates : list (string * jsval))
    : M jsval :=
  request ("/users/" ++ userId ++ "/favorites/" ++ listId) (with_body "PUT" updates) 3.

Definition deleteFavoriteList (userId listId : string) : M jsval :=
  request ("/users/" ++ userId ++ "/favorites/" ++ listId) (with_method "DELETE") 3.

Definition addSeriesToFavoriteList (userId listId seriesId : string) : M jsval :=
  request ("/users/" ++ userId ++ "/favorites/" ++ listId ++ "/series")
          (with_body "POST" [("seriesId", VStr seriesId)]) 3.

Definition removeSeriFromFavoriteList (userId listId seriesId : string) : M jsval :=
  request ("/users/" ++ userId ++ "/favorites/" ++ listId ++ "/series/" ++ seriesId)
          (with_method "DELETE") 3.

End ApiService.

(** ** The stateful call adapter: [useApi] of hooks/useApi.ts *)

(** The three [useState] cells of the hook. [error] is [string | null];
    [data] is [T | null], [null] being [VNull]. *)
Record CallState : Type := mkCallState {
  loading : bool;
  error : option string;
  data : jsval
}.

(** [useState(false)], [useState(null)], [useState(null)] *)
Definition initial_state : CallState :=
  {| loading := false; error := None; data := VNull |}.

Definition setLoading (b : bool) (st : CallState) : CallState :=
  {| loading := b; error := error st; data := data st |}.

Definition setError (e : option string) (st : CallState) : CallState :=
  {| loading := loading st; error := e; data := data st |}.

Definition setData (d : jsval) (st : CallState) : CallState :=
  {| loading := loading st; error := error st; data := d |}.

(** A callback supplied by the caller returns ([None]) or throws. *)
Definition Callback (A : Type) : Type := A -> option Value.

Record UseApiOptions : Type := mkOptions {
  onSuccess : option (Callback jsval);
  onError : option (Callback string)
}.

(** [if (cb) { cb(a) }] *)
Definition call_if_present {A} (cb : option (Callback A)) (a : A) : option Value :=
  match cb with
  | Some f => f a
  | None => None
  end.

Module UseApi.

(** What [execute] has done when it reaches [await apiCall()]. *)
Definition execute_start (st : CallState) : CallState :=
  setError None (setLoading true st).

(** The [catch] clause of [execute] followed by its [finally]. *)
Definition execute_catch (options : UseApiOptions) (err : Value) (st : CallState)
    (w : World) : Completion jsval * CallState * World :=
  let errorMessage := getErrorMessage err in
  let st := setError (Some errorMessage) st in
  match call_if_present (onError options) errorMessage with
  | Some thrown => (Thrown thrown, setLoading false st, w)
  | None => (Thrown err, setLoading false st, w)
  end.

(** [execute(apiCall)] *)
Definition execute (options : UseApiOptions) (apiCall : M jsval) (st : CallState)
    (w : World) : Completion jsval * CallState * World :=
  let st := execute_start st in
  match apiCall w with
  | (Returned result, w) =>
      let st := setData result st in
      match call_if_present (onSuccess options) result with
      | Some thrown => execute_catch options thrown st w
      | None => (Returned result, setLoading false st, w)
      end
  | (Thrown err, w) => execute_catch options err st w
  end.

(** The [error] cell as the JavaScript value the closures read. *)
Definition error_value (st : CallState) : jsval :=
  match error st with
  | Some message => VStr message
  | None => VNull
  end.

(** [error ? isRetryableError(error) : false], also the test of [retry]:
    the argument is the content of the [error] cell. *)
Definition canRetry (st : CallState) : bool :=
  Js.truthy (error_value st) && isRetryableError (Foreign (NonError (error_value st))).

(** [retry(apiCall)] *)
Definition retry (options : UseApiOptions) (apiCall : M jsval) (st : CallState)
    (w : World) : Completion jsval * CallState * World :=
  if Js.truthy (error_value st) && isRetryableError (Foreign (NonError (error_value st)))
  then execute options apiCall st w
  else (Thrown (new_Error "Cannot retry this operation"), st, w).

(** [reset()] *)
Definition reset (st : CallState) : CallState :=
  setData VNull (setError None (setLoading false st)).


End UseApi.

(** ** Vocabulary of the properties *)

(** The address a request to [endpoint] is sent to. *)
Definition url_of (env : Env) (endpoint : string) : string :=
  API_BASE_URL env ++ endpoint.

(** The statuses the engine answers with a new attempt. *)
Definition retried_status (st : Z) : bool :=
  (st =? 429) || (st =? 502) || (st =? 503) || (st =? 504).

(** The rejections the engine classifies as a failure of the transport:
    a [TypeError] whose message mentions fetch. *)
Definition fetch_type_error (e : ForeignValue) : bool :=
  match e with
  | TypeError message => Js.includes message "fetch"
  | _ => false
  end.

(** Whether a successful response declares a JSON body. *)
Definition declares_json (r : Response) : bool :=
  match content_type r with
  | Some contentType => Js.truthy (VStr contentType) && Js.includes contentType "application/json"
  | None => false
  end.

(** The value a successful response resolves to, when its body can be
    read: the parsed body if the response declares JSON, [null] otherwise. *)
Definition success_value (r : Response) : option jsval :=
  if declares_json r then
    match json r with
    | JsonResolves v => Some v
    | JsonRejects _ => None
    end
  else Some VNull.

(** An attempt outcome that is answered with a new attempt while attempts
    remain: a response with a retried status, or a classified transport
    failure, raised by [fetch] or while the declared JSON body of a
    successful response is read. *)
Definition transient (o : FetchOutcome) : bool :=
  match o with
  | Rejects e => fetch_type_error e
  | Resolves r =>
      if ok r then
        declares_json r &&
        match json r with JsonRejects e => fetch_type_error e | JsonResolves _ => false end
      else retried_status (status r)
  end.

(** The transport rejected with [x]: [fetch] did, or the read of the declared
    JSON body of a successful response did. *)
Definition rejected_with (o : FetchOutcome) (x : ForeignValue) : Prop :=
  o = Rejects x \/
  exists r, o = Resolves r /\ ok r = true /\ declares_json r = true /\ json r = JsonRejects x.

(** The statuses whose failure carries the message read from the response
    body: every status but the eight with a fixed message. *)
Definition uses_body_message (st : Z) : bool :=
  negb (Js.array_includes [401; 403; 404; 429; 500; 502; 503; 504] st).

(** The message used when the body of a failed response gives none. *)
Definition status_line (r : Response) : string :=
  "Request failed: " ++ Js.string_of_Z (status r) ++ " " ++ statusText r.

(** The message a failed response offers, before any conversion: the member
    [message] of its body when truthy, else the member [error] when truthy,
    else the status line (also when the body cannot be read or is no
    object). *)
Definition body_message (r : Response) : jsval :=
  match json r with
  | JsonResolves (VObj props) =>
      if Js.truthy (Js.lookup_prop props "message") then Js.lookup_prop props "message"
      else if Js.truthy (Js.lookup_prop props "error") then Js.lookup_prop props "error"
      else VStr (status_line r)
  | _ => VStr (status_line r)
  end.

(** [x instanceof TypeError] on a rejection of the transport. *)
Definition type_error (x : ForeignValue) : bool :=
  match x with TypeError _ => true | _ => false end.

(** The failures an attempt can end with, by the outcome [o] of its transport
    invocation and a test [unexpected] on rejections:
    - a [NetworkError] for a classified rejection;
    - an [ApiError] carrying the status of a failed response other than 400,
      whose message, for the statuses that take it from the body, could be
      converted to a string;
    - a [ValidationError] for status 400, with a message that could be
      converted;
    - a plain [Error], either for an [unexpected] rejection, or for a failed
      response whose status takes the message from the body when that message
      cannot be converted to a string. *)
Definition failure_from (unexpected : ForeignValue -> bool) (o : FetchOutcome) (e : Value)
    : Prop :=
  match e with
  | Custom (NetworkError _ _) => exists x, rejected_with o x /\ fetch_type_error x = true
  | Custom (ApiError st _ _ _) =>
      exists r, o = Resolves r /\ ok r = false /\ status r = st /\ st <> 400 /\
                (uses_body_message st = true -> Js.convertible (body_message r) = true)
  | Custom (ValidationError _ field) =>
      field = None /\
      exists r, o = Resolves r /\ ok r = false /\ status r = 400 /\
                Js.convertible (body_message r) = true
  | Foreign (PlainError name message) =>
      name = "Error" /\
      ((exists x, rejected_with o x /\ unexpected x = true /\
                  message = "Unexpected error: " ++
                            (if instanceof_Error (Foreign x) then error_message (Foreign x)
                             else "Unknown error")) \/
       (exists r, o = Resolves r /\ ok r = false /\ uses_body_message (status r) = true /\
                  Js.convertible (body_message r) = false /\
                  message = "Unexpected error: " ++ Js.cannot_convert))
  | Foreign (TypeError _) | Foreign (NonError _) => False
  end.

(** Every failure of an attempt: the rejections that end as a plain [Error]
    are those the engine does not classify. *)
Definition attempt_failure : FetchOutcome -> Value -> Prop :=
  failure_from (fun x => negb (fetch_type_error x)).

(** The failures of an attempt when the transport raises no [TypeError] but
    those that mention fetch: the rejections that end as a plain [Error] are
    then the values that are no [TypeError] (a [SyntaxError] of the body
    parser, an abort). *)
Definition failure_kind : FetchOutcome -> Value -> Prop :=
  failure_from (fun x => negb (type_error x)).

(** A transport all of whose [TypeError]s, raised by [fetch] or while a
    declared JSON body is read, mention fetch in their message. *)
Definition type_errors_mention_fetch (transport : Transport) : Prop :=
  forall n url init message,
    rejected_with (transport n url init) (TypeError message) ->
    Js.includes message "fetch" = true.

(** The wait after attempt number [attempt], in milliseconds:
    [2 ^ attempt] seconds, and a tenth of that when the code runs under
    test. *)
Definition backoff_ms (env : Env) (attempt : Z) : Z :=
  if String.eqb (MODE env) "test" then 2 ^ attempt * 100 else 2 ^ attempt * 1000.

(** The trace of [k] attempts numbered from [attempt]: one transport
    invocation per attempt, and between two consecutive ones the timer of the
    wait. *)
Fixpoint attempts_trace (env : Env) (url : string) (init : RequestInit) (attempt : Z)
    (k : nat) : World :=
  match k with
  | O => []
  | S O => [Fetch url init]
  | S k' =>
      Fetch url init :: SetTimeout (backoff_ms env attempt)
        :: attempts_trace env url init (attempt + 1) k'
  end.

(** The message of the failure raised when the attempts are exhausted on a
    retried status. *)
Definition exhausted_message (st : Z) : string :=
  if st =? 429 then "Rate limit exceeded" else "Service temporarily unavailable".

(** The failure a retried status ends with once the attempts are used up. *)
Definition exhausted_failure (endpoint : string) (r : Response) : Value :=
  Custom (ApiError (status r)
            (if status r =? 429 then "Too Many Requests" else statusText r)
            (exhausted_message (status r)) endpoint).

(** What the request operation emits: timers, and invocations of the
    transport at one address with one argument. *)
Definition sent_by_request (env : Env) (endpoint : string) (options : RequestInit)
    (e : Event) : Prop :=
  match e with
  | Fetch u i => u = url_of env endpoint /\ i = fetch_init options
  | SetTimeout _ => True
  end.

(** The timer [delay(ms)] arms. *)
Definition timer_of (env : Env) (ms : Z) : Z :=
  if String.eqb (MODE env) "test" then ms / 10 else ms.

(** The calls a client can make on the facade. *)
Inductive FacadeCall : Type :=
| CreateUser (userData : list (string * jsval))
| GetUser (id : string)
| GetUserByEmail (email : string)
| GetUserByUsername (username : string)
| UpdateUser (id : string) (updates : list (string * jsval))
| DeleteUser (id : string)
| CreateSeries (seriesData : list (string * jsval))
| GetSeries (id userId : string)
| GetUserSeries (userId : string)
| GetRecommendations (userId : option string)
| UpdateSeries (id userId : string) (updates : list (string * jsval))
| DeleteSeries (id userId : string)
| LikeSeries (seriesId seriesUserId userId : string)
| UnlikeSeries (seriesId seriesUserId userId : string)
| GetFriends (userId : string)
| AddFriend (userId friendId : string)
| RemoveFriend (userId friendId : string)
| GetFriendRequests (userId : string)
| AcceptFriendRequest (userId friendId : string)
| RejectFriendRequest (userId friendId : string)
| CreateFavoriteList (userId : string) (listData : list (string * jsval))
| GetFavoriteLists (userId : string)
| GetFavoriteList (userId listId : string)
| UpdateFavoriteList (userId listId : string) (updates : list (string * jsval))
| DeleteFavoriteList (userId listId : string)
| AddSeriesToFavoriteList (userId listId seriesId : string)
| RemoveSeriFromFavoriteList (userId listId seriesId : string).

Definition invoke (env : Env) (transport : Transport) (c : FacadeCall) : M jsval :=
  match c with
  | CreateUser userData => createUser env transport userData
  | GetUser id => getUser env transport id
  | GetUserByEmail email => getUserByEmail env transport email
  | GetUserByUsername username => getUserByUsername env transport username
  | UpdateUser id updates => updateUser env transport id updates
  | DeleteUser id => deleteUser env transport id
  | CreateSeries seriesData => createSeries env transport seriesData
  | GetSeries id userId => getSeries env transport id userId
  | GetUserSeries userId => getUserSeries env transport userId
  | GetRecommendations userId => getRecommendations env transport userId
  | UpdateSeries id userId updates => updateSeries env transport id userId updates
  | DeleteSeries id userId => deleteSeries env transport id userId
  | LikeSeries seriesId seriesUserId userId =>
      likeSeries env transport seriesId seriesUserId userId
  | UnlikeSeries seriesId seriesUserId userId =>
      unlikeSeries env transport seriesId seriesUserId userId
  | GetFriends userId => getFriends env transport userId
  | AddFriend userId friendId => addFriend env transport userId friendId
  | RemoveFriend userId friendId => removeFriend env transport userId friendId
  | GetFriendRequests userId => getFriendRequests env transport userId
  | AcceptFriendRequest userId friendId => acceptFriendRequest env transport userId friendId
  | RejectFriendRequest userId friendId => rejectFriendRequest env transport userId friendId
  | CreateFavoriteList userId listData => createFavoriteList env transport userId listData
  | GetFavoriteLists userId => getFavoriteLists env transport userId
  | GetFavoriteList userId listId => getFavoriteList env transport userId listId
  | UpdateFavoriteList userId listId updates =>
      updateFavoriteList env transport userId listId updates
  | DeleteFavoriteList userId listId => deleteFavoriteList env transport userId listId
  | AddSeriesToFavoriteList userId listId seriesId =>
      addSeriesToFavoriteList env transport userId listId seriesId
  | RemoveSeriFromFavoriteList userId listId seriesId =>
      removeSeriFromFavoriteList env transport userId listId seriesId
  end.

(** A member of a payload that is absent or empty. *)
Definition lacks (payload : list (string * jsval)) (field : string) : bool :=
  match Js.lookup_prop payload field with
  | VUndefined | VNull => true
  | VStr s => String.eqb s ""
  | _ => false
  end.

(** A call one of whose required inputs is missing or empty: a required
    string argument of the method's signature that is the empty string, or a
    member that a creation needs that the payload lacks. *)
Definition required_input_missing (c : FacadeCall) : bool :=
  let empty (s : string) := String.eqb s "" in
  match c with
  | CreateUser userData =>
      lacks userData "username" || lacks userData "email" || lacks userData "displayName"
  | CreateSeries seriesData =>
      lacks seriesData "title" || lacks seriesData "userId" || lacks seriesData "genre"
  | GetUser id | DeleteUser id | UpdateUser id _ => empty id
  | GetUserByEmail email => empty email
  | GetUserByUsername username => empty username
  | GetSeries id userId | DeleteSeries id userId | UpdateSeries id userId _ =>
      empty id || empty userId
  | GetUserSeries userId => empty userId
  | GetRecommendations _ => false
  | LikeSeries seriesId seriesUserId userId | UnlikeSeries seriesId seriesUserId userId =>
      empty seriesId || empty seriesUserId || empty userId
  | GetFriends userId | GetFriendRequests userId | GetFavoriteLists userId
  | CreateFavoriteList userId _ => empty userId
  | AddFriend userId friendId | RemoveFriend userId friendId
  | AcceptFriendRequest userId friendId | RejectFriendRequest userId friendId =>
      empty userId || empty friendId
  | GetFavoriteList userId listId | DeleteFavoriteList userId listId
  | UpdateFavoriteList userId listId _ => empty userId || empty listId
  | AddSeriesToFavoriteList userId listId seriesId
  | RemoveSeriFromFavoriteList userId listId seriesId =>
      empty userId || empty listId || empty seriesId
  end.

(** The user and series methods, which check their inputs before dispatch;
    the friend and favorite-list methods do not. *)
Definition validates_inputs (c : FacadeCall) : bool :=
  match c with
  | CreateUser _ | GetUser _ | GetUserByEmail _ | GetUserByUsername _ | UpdateUser _ _
  | DeleteUser _ | CreateSeries _ | GetSeries _ _ | GetUserSeries _ | UpdateSeries _ _ _
  | DeleteSeries _ _ | LikeSeries _ _ _ | UnlikeSeries _ _ _ => true
  | _ => false
  end.

(** The friend and favorite-list methods. *)
Definition friend_or_favorite (c : FacadeCall) : bool :=
  match c with
  | GetFriends _ | AddFriend _ _ | RemoveFriend _ _ | GetFriendRequests _
  | AcceptFriendRequest _ _ | RejectFriendRequest _ _
  | CreateFavoriteList _ _ | GetFavoriteLists _ | GetFavoriteList _ _
  | UpdateFavoriteList _ _ _ | DeleteFavoriteList _ _
  | AddSeriesToFavoriteList _ _ _ | RemoveSeriFromFavoriteList _ _ _ => true
  | _ => false
  end.

Definition is_validation_failure (c : Completion jsval) : bool :=
  match c with
  | Thrown (Custom (ValidationError _ _)) => true
  | _ => false
  end.

(** ** Concrete environments, responses and transports used in examples *)

Definition dev_env : Env := {| PROD := false; MODE := "development" |}.

Definition test_env : Env := {| PROD := false; MODE := "test" |}.

Definition json_response (st : Z) (text : string) (payload : jsval) : Response :=
  {| ok := (200 <=? st) && (st <=? 299); status := st; statusText := text;
     content_type := Some "application/json"; json := JsonResolves payload |}.

Definition user1 : jsval := VObj [("id", VStr "1"); ("username", VStr "test")].

Definition r200 : Response := json_response 200 "OK" user1.

Definition r503 : Response :=
  json_response 503 "Service Unavailable" (VObj [("message", VStr "Service unavailable")]).

Definition r404 : Response :=
  json_response 404 "Not Found" (VObj [("message", VStr "No series found")]).

Definition always (o : FetchOutcome) : Transport := fun _ _ _ => o.

(** A server that cannot be reached. *)
Definition offline : Transport := always (Rejects (TypeError "Failed to fetch")).

Definition no_callbacks : UseApiOptions := {| onSuccess := None; onError := None |}.

(** [mockResolvedValueOnce] for each element of [script], then [o]. *)
Definition scripted (script : list FetchOutcome) (o : FetchOutcome) : Transport :=
  fun n _ _ => nth n script o.

(** ** Vocabulary of the further properties *)

(** The failure the engine ends with when the transport cannot be reached. *)
Definition network_failure (endpoint : string) : Value :=
  Custom (NetworkError "Network connection failed. Please check your internet connection."
            endpoint).

(** The sum of the timers of a trace, in milliseconds. *)
Definition total_wait (w : World) : Z := fold_right Z.add 0 (timers w).

(** A failure of the engine that reports a transient condition: a
    [NetworkError], or an [ApiError] with a retried status. *)
Definition reports_transient (e : Value) : bool :=
  instanceof_NetworkError e || instanceof_ApiError e && retried_status (error_status e).

(** The failure of such a status: a [ValidationError] for 400, else an
    [ApiError] with the status and status text of the response. *)
Definition failure_with_message (endpoint : string) (r : Response) (message : string)
    : Value :=
  if status r =? 400 then Custom (ValidationError message None)
  else Custom (ApiError (status r) (statusText r) message endpoint).

(** An event that is a timer or an invocation of the transport at [url] with
    the argument [init]. *)
Definition only_fetches (url : string) (init : RequestInit) (e : Event) : Prop :=
  match e with
  | Fetch u i => u = url /\ i = init
  | SetTimeout _ => True
  end.

(** How a facade method post-processes the engine: a failure that is an
    [ApiError] with status [st] becomes a [ValidationError] with the given
    message, every other failure is rethrown, a value is returned as it is. *)
Definition remaps (env : Env) (transport : Transport) (call : M jsval)
    (endpoint : string) (options : RequestInit) (st : Z) (message : string)
    (w : World) : Prop :=
  (forall text m ep w',
     request env transport endpoint options 3 w
     = (Thrown (Custom (ApiError st text m ep)), w') ->
     call w = (Thrown (validation_error message), w')) /\
  (forall e w',
     request env transport endpoint options 3 w = (Thrown e, w') ->
     (forall text m ep, e <> Custom (ApiError st text m ep)) ->
     call w = (Thrown e, w')) /\
  (forall v w',
     request env transport endpoint options 3 w = (Returned v, w') ->
     call w = (Returned v, w')).

(** [s] consists of characters that satisfy [p]. *)
Fixpoint string_forall (p : ascii -> bool) (s : string) : bool :=
  match s with
  | EmptyString => true
  | String c rest => p c && string_forall p rest
  end.

(** The statuses for which [getErrorMessage] shows a fixed sentence. *)
Definition fixed_copy (st : Z) : bool :=
  Js.array_includes [401; 403; 404; 429; 500; 502; 503; 504] st.

(** The headers of a request issued without headers of the caller. *)
Definition json_headers : option (gmap string string) :=
  Some {[ "Content-Type" := "application/json" ]}.

(** A computation that emits only timers and invocations of the transport at
    one address with one argument, which carries the default headers. *)
Definition talks (m : M jsval) : Prop :=
  forall w c w',
    m w = (c, w') ->
    exists rest url init,
      w' = (w ++ rest)%list /\ headers init = json_headers /\
      Forall (only_fetches url init) rest.

(** The sentence shown after the attempts were used up on a retried
    status. *)
Definition outage_copy (st : Z) : string :=
  if st =? 429 then "Too many requests. Please wait a moment and try again."
  else "The service is temporarily unavailable. Please try again later.".

(** ** The query variant of the adapter: [useQuery] of hooks/useApi.ts *)

Module UseQuery.

(** [UseApiOptions & { enabled?: boolean; retryCount?: number }] *)
Record QueryOptions : Type := mkQueryOptions {
  api_options : UseApiOptions;
  enabled : option bool;
  retryCount : option Z
}.

(** [const maxRetries = options.retryCount || 3] *)
Definition maxRetries (options : QueryOptions) : Z :=
  match retryCount options with
  | Some n => if Js.truthy (VNum n) then n else 3
  | None => 3
  end.

(** [fetchData()], for the callback created in a render where the
    [retryCount] cell held [retryCount]: the call goes through [execute]; on a
    failure that [isRetryableError] accepts, while [retryCount < maxRetries],
    it arms a timer of [Math.pow(2, retryCount) * 1000] milliseconds with the
    global [setTimeout], and it rethrows. What the timer does when it fires
    (increment the cell, call [fetchData] again) is not part of this
    function. *)
Definition fetchData (options : QueryOptions) (queryFn : M jsval) (retryCount : Z)
    (st : CallState) (w : World) : Completion jsval * CallState * World :=
  match UseApi.execute (api_options options) queryFn st w with
  | (Returned result, st, w) => (Returned result, st, w)
  | (Thrown err, st, w) =>
      if isRetryableError err && (retryCount <? maxRetries options)
      then (Thrown err, st, (w ++ [SetTimeout (2 ^ retryCount * 1000)])%list)
      else (Thrown err, st, w)
  end.

End UseQuery.

(** ** A caller of the facade: [AuthProvider] of contexts/AuthContext.tsx *)

Module AuthContext.

(** The cells [user] and [loading] of the provider, and the entry ['user'] of
    [localStorage] ([None] when [getItem] answers [null]). *)
Record AuthState : Type := mkAuthState {
  user : jsval;
  loading : bool;
  storage : option string
}.

Definition setUser (u : jsval) (st : AuthState) : AuthState :=
  {| user := u; loading := loading st; storage := storage st |}.

Definition setLoading (b : bool) (st : AuthState) : AuthState :=
  {| user := user st; loading := b; storage := storage st |}.

(** The entry ['user'] after a [localStorage.setItem('user', text)] that
    stored the text. *)
Definition stored (text : string) (st : AuthState) : AuthState :=
  {| user := user st; loading := loading st; storage := Some text |}.

(** [localStorage.removeItem('user')] *)
Definition removeItem (st : AuthState) : AuthState :=
  {| user := user st; loading := loading st; storage := None |}.

(** [interface RegisterData] *)
Record RegisterData : Type := mkRegisterData {
  username : string;
  email : string;
  password : string;
  displayName : string;
  bio : option string
}.

Section WithJson.

(** [JSON.stringify] and [JSON.parse] on the text kept in [localStorage];
    [JSON.parse] returns the parsed value or throws. *)
Variable JSON_stringify_text : jsval -> string.
Variable JSON_parse : string -> Completion jsval.

(** What [localStorage.setItem('user', text)] throws, if anything: the
    storage may be full or disabled ([QuotaExceededError], [SecurityError]). *)
Variable setItem_throws : string -> option Value.

Variable env : Env.
Variable transport : Transport.

(** [localStorage.setItem('user', text)] *)
Definition setItem (text : string) (st : AuthState) : Completion unit * AuthState :=
  match setItem_throws text with
  | Some error => (Thrown error, st)
  | None => (Returned tt, stored text st)
  end.

(** [initializeAuth()], run once when the provider mounts. *)
Definition initializeAuth (st : AuthState) : AuthState :=
  let st :=
    match storage st with
    | Some savedUser =>
        if Js.truthy (VStr savedUser) then
          match JSON_parse savedUser with
          | Returned userData => setUser userData st
          | Thrown _ => removeItem st
          end
        else st
    | None => st
    end in
  setLoading false st.

(** [login(username, _password)] *)
Definition login (username _password : string) (st : AuthState) (w : World)
    : Completion unit * AuthState * World :=
  let st := setLoading true st in
  match getUserByUsername env transport username w with
  | (Returned userData, w) =>
      if Js.truthy userData then
        let st := setUser userData st in
        match setItem (JSON_stringify_text userData) st with
        | (Returned _, st) => (Returned tt, setLoading false st, w)
        | (Thrown _, st) =>
            (* thrown inside the try block, after setUser *)
            (Thrown (new_Error "Login failed"), setLoading false st, w)
        end
      else
        (* throw new Error('User not found'), caught by the catch clause *)
        (Thrown (new_Error "Login failed"), setLoading false st, w)
  | (Thrown _, w) => (Thrown (new_Error "Login failed"), setLoading false st, w)
  end.

(** [promise.catch(() => null)] *)
Definition catch_null (m : M jsval) : M jsval := try_catch m (fun _ => ret VNull).

(** The object passed to [createUser] by [register]; [clock_id] is the
    reading [Date.now()], and the two [Date] objects are held as their time
    values [clock_created] and [clock_updated]. *)
Definition new_user_payload (userData : RegisterData) (clock_id clock_created clock_updated : Z)
    : list (string * jsval) :=
  [("id", VStr ("user-" ++ Js.string_of_Z clock_id));
   ("username", VStr (username userData));
   ("email", VStr (email userData));
   ("displayName", VStr (displayName userData));
   ("bio", match bio userData with Some b => VStr b | None => VUndefined end);
   ("createdAt", VNum clock_created);
   ("updatedAt", VNum clock_updated)].

(** The [try] block of [register], after [setLoading(true)], up to the value
    of [newUser]. *)
Definition register_try (userData : RegisterData)
    (clock_id clock_created clock_updated : Z) : M jsval :=
  existingUser <- catch_null (getUserByUsername env transport (username userData)) ;;
  if Js.truthy existingUser then throw (new_Error "Username already exists")
  else
    existingEmail <- catch_null (getUserByEmail env transport (email userData)) ;;
    if Js.truthy existingEmail then throw (new_Error "Email already exists")
    else
      createUser env transport
        (new_user_payload userData clock_id clock_created clock_updated).

(** [register(userData)] *)
Definition register (userData : RegisterData) (clock_id clock_created clock_updated : Z)
    (st : AuthState) (w : World) : Completion unit * AuthState * World :=
  let st := setLoading true st in
  match register_try userData clock_id clock_created clock_updated w with
  | (Returned newUser, w) =>
      let st := setUser newUser st in
      match setItem (JSON_stringify_text newUser) st with
      | (Returned _, st) => (Returned tt, setLoading false st, w)
      | (Thrown error, st) => (Thrown error, setLoading false st, w)
      end
  | (Thrown error, w) => (Thrown error, setLoading false st, w)
  end.

(** [logout()] *)
Definition logout (st : AuthState) : AuthState :=
  removeItem (setUser VNull st).

End WithJson.

End AuthContext.

(** ** More concrete values used in examples *)

Definition r409 : Response :=
  json_response 409 "Conflict" (VObj [("message", VStr "User already exists")]).

(** A transport that fails once, answers 503 once, and then answers. *)
Definition flaky : Transport :=
  scripted [Rejects (TypeError "Failed to fetch"); Resolves r503] (Resolves r200).

Definition throwing_success : UseApiOptions :=
  {| onSuccess := Some (fun _ => Some (new_Error "callback failed")); onError := None |}.

Definition default_query : UseQuery.QueryOptions :=
  {| UseQuery.api_options := no_callbacks; UseQuery.enabled := None;
     UseQuery.retryCount := None |}.

Definition signed_out : AuthContext.AuthState :=
  {| AuthContext.user := VNull; AuthContext.loading := false;
     AuthContext.storage := None |}.

Definition signed_in : AuthContext.AuthState :=
  {| AuthContext.user := user1; AuthContext.loading := false;
     AuthContext.storage := Some "user1" |}.

(** A serialiser and a parser for the single stored text of the examples. *)
Definition stringify_user1 : jsval -> string := fun _ => "user1".

Definition parse_user1 : string -> Completion jsval := fun _ => Returned user1.

(** A storage that accepts every write, and one that is full. *)
Definition storage_accepts : string -> option Value := fun _ => None.

Definition storage_full : string -> option Value :=
  fun _ => Some (Foreign (PlainError "QuotaExceededError" "The quota has been exceeded."))%string.

(** A failed response whose body offers a message that cannot be converted
    to a string, and one that cannot be parsed at all. *)
Definition r408 : Response :=
  json_response 408 "Request Timeout" (VObj [("message", VStr "Timed out")]).

Definition r400_unconvertible : Response :=
  json_response 400 "Bad Request" (VObj [("message", VObj [("toString", VNum 1)])]).

Definition r200_unparsable : Response :=
  {| ok := true; status := 200; statusText := "OK";
     content_type := Some "application/json";
     json := JsonRejects (PlainError "SyntaxError" "Unexpected end of JSON input") |}.

Definition new_account : AuthContext.RegisterData :=
  {| AuthContext.username := "test"; AuthContext.email := "test@example.com";
     AuthContext.password := "secret"; AuthContext.displayName := "Test User";
     AuthContext.bio := None |}.

(** * Properties *)

Local Open Scope list_scope.

(** ** Traces *)

Lemma fetch_count_app (w1 w2 : World) :
  fetch_count (w1 ++ w2) = (fetch_count w1 + fetch_count w2)%nat.
Proof.
  induction w1 as [|[url init|ms] w1 IH]; simpl; [reflexivity | rewrite IH | exact IH].
  reflexivity.
Qed.

Lemma timers_app (w1 w2 : World) : timers (w1 ++ w2) = timers w1 ++ timers w2.
Proof.
  induction w1 as [|[url init|ms] w1 IH]; simpl; [reflexivity | exact IH | rewrite IH].
  reflexivity.
Qed.

Lemma fetch_count_attempts_trace env url init a k :
  fetch_count (attempts_trace env url init a k) = k.
Proof.
  revert a. induction k as [|k IH]; intros a; [reflexivity|].
  destruct k as [|k]; [reflexivity|].
  change (S (fetch_count (attempts_trace env url init (a + 1) (S k))) = S (S k)).
  rewrite IH. reflexivity.
Qed.

(** The quotient by ten that [delay] takes under test is exact on the waits
    of the engine. *)
Lemma timer_backoff env attempt : timer_of env (2 ^ attempt * 1000) = backoff_ms env attempt.
Proof.
  unfold timer_of, backoff_ms. destruct (String.eqb (MODE env) "test"); [|reflexivity].
  replace (2 ^ attempt * 1000) with (2 ^ attempt * 100 * 10) by lia.
  apply Z.div_mul. discriminate.
Qed.

Section EngineFacts.

Variable env : Env.
Variable transport : Transport.

Lemma fetch_run url init w :
  fetch transport url init w =
  (match transport (fetch_count w) url init with
   | Resolves r => Returned r
   | Rejects e => Thrown (Foreign e)
   end, w ++ [Fetch url init]).
Proof. unfold fetch. destruct (transport _ _ _); reflexivity. Qed.

(** Reading the message of a failed response never throws and emits
    nothing: it yields [body_message]. *)
Lemma read_error_message_run r w :
  read_error_message r w = (Returned (body_message r), w).
Proof.
  unfold read_error_message, body_message, status_line.
  unfold try_catch, bind, response_json, get_member, ret, throw.
  destruct (json r) as [v|e]; [|reflexivity].
  destruct v; simpl; try reflexivity.
  destruct (Js.truthy (Js.lookup_prop props "message")); [reflexivity|].
  destruct (Js.truthy (Js.lookup_prop props "error")); reflexivity.
Qed.

Lemma retried_not_body st : retried_status st = true -> uses_body_message st = false.
Proof.
  unfold retried_status, uses_body_message, Js.array_includes. simpl. intros H.
  apply negb_false_iff.
  destruct (st =? 429), (st =? 502), (st =? 503), (st =? 504); try discriminate;
    rewrite ?orb_true_r; reflexivity.
Qed.

Lemma retry_or_throw_continue retries attempt exhausted w :
  attempt < retries ->
  retry_or_throw env retries attempt exhausted w =
  (Returned Continue, w ++ [SetTimeout (timer_of env (2 ^ attempt * 1000))]).
Proof.
  intros H. unfold retry_or_throw.
  destruct (Z.ltb_spec attempt retries); [reflexivity | lia].
Qed.

Lemma retry_or_throw_exhausted retries attempt exhausted w :
  retries <= attempt ->
  retry_or_throw env retries attempt exhausted w = (Thrown exhausted, w).
Proof.
  intros H. unfold retry_or_throw.
  destruct (Z.ltb_spec attempt retries); [lia | reflexivity].
Qed.

(** *** One attempt *)

Section OneAttempt.

Variables (endpoint : string) (options : RequestInit) (retries attempt : Z).
Variable w : World.

Local Abbreviation url := (url_of env endpoint).
Local Abbreviation init := (fetch_init options).
Local Abbreviation outcome :=
  (transport (fetch_count w) (url_of env endpoint) (fetch_init options)).
Local Abbreviation run := (request_attempt env transport endpoint options retries attempt w).
Local Abbreviation backoff := (SetTimeout (timer_of env (2 ^ attempt * 1000))).

Lemma catch_custom e w1 :
  request_catch env endpoint retries attempt (Custom e) w1 = (Thrown (Custom e), w1).
Proof. destruct e; reflexivity. Qed.

Lemma catch_classified x w1 :
  fetch_type_error x = true ->
  request_catch env endpoint retries attempt (Foreign x) w1 =
  retry_or_throw env retries attempt
    (Custom (NetworkError
               "Network connection failed. Please check your internet connection."
               endpoint)) w1.
Proof.
  intros Hx. destruct x as [m|n m|v]; try discriminate.
  unfold request_catch. simpl in *. rewrite Hx. reflexivity.
Qed.

Lemma catch_unclassified x w1 :
  fetch_type_error x = false ->
  request_catch env endpoint retries attempt (Foreign x) w1 =
  (Thrown (new_Error ("Unexpected error: " ++
                      (if instanceof_Error (Foreign x) then error_message (Foreign x)
                       else "Unknown error"))%string), w1).
Proof.
  intros Hx. destruct x as [m|n m|v]; try reflexivity.
  unfold request_catch. simpl in *. rewrite Hx. reflexivity.
Qed.

Lemma try_rejected x :
  outcome = Rejects x ->
  request_try env transport endpoint options retries attempt w =
  (Thrown (Foreign x), w ++ [Fetch url init]).
Proof.
  intros Ho. unfold request_try, bind. fold (url_of env endpoint).
  rewrite fetch_run, Ho. reflexivity.
Qed.

Lemma try_success r v :
  outcome = Resolves r -> ok r = true -> success_value r = Some v ->
  request_try env transport endpoint options retries attempt w =
  (Returned (Return v), w ++ [Fetch url init]).
Proof.
  intros Ho Hok Hv. unfold request_try, bind. fold (url_of env endpoint).
  rewrite fetch_run, Ho, Hok.
  unfold success_value, declares_json in Hv.
  destruct (content_type r) as [ct|]; [|injection Hv as <-; reflexivity].
  destruct (Js.truthy (VStr ct) && Js.includes ct "application/json").
  - unfold response_json. destruct (json r); [|discriminate].
    injection Hv as <-. reflexivity.
  - injection Hv as <-. reflexivity.
Qed.

Lemma try_body_rejected r x :
  outcome = Resolves r -> ok r = true -> declares_json r = true ->
  json r = JsonRejects x ->
  request_try env transport endpoint options retries attempt w =
  (Thrown (Foreign x), w ++ [Fetch url init]).
Proof.
  intros Ho Hok Hd Hj. unfold request_try, bind. fold (url_of env endpoint).
  rewrite fetch_run, Ho, Hok.
  unfold declares_json in Hd.
  destruct (content_type r) as [ct|]; [|discriminate].
  rewrite Hd. unfold response_json. rewrite Hj. reflexivity.
Qed.

Lemma try_retried_status r :
  outcome = Resolves r -> ok r = false -> retried_status (status r) = true ->
  request_try env transport endpoint options retries attempt w =
  retry_or_throw env retries attempt (exhausted_failure endpoint r) (w ++ [Fetch url init]).
Proof.
  intros Ho Hok Hst. unfold request_try, bind. fold (url_of env endpoint).
  rewrite fetch_run, Ho, Hok, read_error_message_run.
  unfold exhausted_failure, exhausted_message.
  unfold retried_status in Hst.
  apply orb_prop in Hst as [Hst|Hst]; [apply orb_prop in Hst as [Hst|Hst];
    [apply orb_prop in Hst as [Hst|Hst]|]|];
    apply Z.eqb_eq in Hst; rewrite Hst; reflexivity.
Qed.

(** A failed response with one of the four statuses that are neither
    retried nor given the body's message: the failure is fixed. *)
Lemma try_fixed_status r :
  outcome = Resolves r -> ok r = false ->
  retried_status (status r) = false -> uses_body_message (status r) = false ->
  exists text message,
    request_try env transport endpoint options retries attempt w =
    (Thrown (Custom (ApiError (status r) text message endpoint)), w ++ [Fetch url init]) /\
    status r <> 400.
Proof.
  intros Ho Hok Hst Hb. unfold request_try, bind. fold (url_of env endpoint).
  rewrite fetch_run, Ho, Hok, read_error_message_run.
  unfold retried_status in Hst. rewrite !orb_false_iff in Hst.
  destruct Hst as (((H429 & H502) & H503) & H504).
  unfold uses_body_message, Js.array_includes in Hb. simpl in Hb.
  apply negb_false_iff in Hb. rewrite H429, H502, H503, H504 in Hb |- *.
  rewrite !orb_false_r in Hb.
  destruct (Z.eqb_spec (status r) 400) as [E|E].
  { rewrite E in Hb. discriminate. }
  destruct (Z.eqb_spec (status r) 401) as [E1|E1].
  { rewrite E1. eexists _, _. split; [reflexivity | lia]. }
  destruct (Z.eqb_spec (status r) 403) as [E3|E3].
  { rewrite E3. eexists _, _. split; [reflexivity | lia]. }
  destruct (Z.eqb_spec (status r) 404) as [E4|E4].
  { rewrite E4. eexists _, _. split; [reflexivity | lia]. }
  destruct (Z.eqb_spec (status r) 500) as [E5|E5]; [|discriminate].
  assert (E9 : (status r =? 409) = false) by (apply Z.eqb_neq; lia).
  rewrite E9. simpl. rewrite E5. eexists _, _. split; [reflexivity | lia].
Qed.

(** A failed response with a status that uses the body's message: the
    failure is built from the converted message, and the [TypeError] of a
    failed conversion is thrown in its place. *)
Lemma try_body_status r :
  outcome = Resolves r -> ok r = false -> uses_body_message (status r) = true ->
  request_try env transport endpoint options retries attempt w =
  (match Js.ToString (body_message r) with
   | Some message => Thrown (failure_with_message endpoint r message)
   | None => Thrown (Foreign (TypeError Js.cannot_convert))
   end, w ++ [Fetch url init]).
Proof.
  intros Ho Hok Hst. unfold request_try, bind. fold (url_of env endpoint).
  rewrite fetch_run, Ho, Hok, read_error_message_run.
  unfold uses_body_message, Js.array_includes in Hst. simpl in Hst.
  apply negb_true_iff in Hst. rewrite !orb_false_iff in Hst.
  destruct Hst as (H401 & H403 & H404 & H429 & H500 & H502 & H503 & H504 & _).
  unfold failure_with_message, message_text, throw, ret.
  destruct (Z.eqb_spec (status r) 400) as [E|E].
  { destruct (Js.ToString (body_message r)); reflexivity. }
  rewrite H401, H403, H404, H429, H500, H502, H503, H504.
  destruct (status r =? 409); simpl; destruct (Js.ToString (body_message r)); reflexivity.
Qed.

(** An attempt answered by a failed response with a status that uses the
    body's message. *)
Lemma attempt_body_status r :
  outcome = Resolves r -> ok r = false -> uses_body_message (status r) = true ->
  run =
  (match Js.ToString (body_message r) with
   | Some message => Thrown (failure_with_message endpoint r message)
   | None => Thrown (new_Error ("Unexpected error: " ++ Js.cannot_convert)%string)
   end, w ++ [Fetch url init]).
Proof.
  intros Ho Hok Hst. unfold request_attempt, try_catch.
  rewrite (try_body_status r Ho Hok Hst).
  destruct (Js.ToString (body_message r)) as [m|]; [|reflexivity].
  unfold failure_with_message. destruct (status r =? 400); reflexivity.
Qed.

(** An attempt answered by a failed response with a status that is not
    retried ends the operation with a failure. *)
Lemma attempt_terminal_status r :
  outcome = Resolves r -> ok r = false -> retried_status (status r) = false ->
  exists e, run = (Thrown e, w ++ [Fetch url init]) /\ attempt_failure outcome e.
Proof.
  intros Ho Hok Hst.
  destruct (uses_body_message (status r)) eqn:Hb.
  - rewrite (attempt_body_status r Ho Hok Hb), Ho.
    destruct (Js.ToString (body_message r)) as [m|] eqn:Hm.
    + assert (Hc : Js.convertible (body_message r) = true).
      { unfold Js.convertible. rewrite Hm. reflexivity. }
      eexists; split; [reflexivity|]. unfold failure_with_message.
      destruct (Z.eqb_spec (status r) 400) as [E|E]; simpl.
      * split; [reflexivity|]. exists r. auto.
      * exists r. auto 6.
    + assert (Hc : Js.convertible (body_message r) = false).
      { unfold Js.convertible. rewrite Hm. reflexivity. }
      eexists; split; [reflexivity|]. simpl. split; [reflexivity|].
      right. exists r. auto 6.
  - destruct (try_fixed_status r Ho Hok Hst Hb) as (text & m & He & Hne).
    unfold request_attempt, try_catch. rewrite He, catch_custom, Ho.
    eexists; split; [reflexivity|]. simpl. exists r. repeat split; auto.
    intros Hb'. rewrite Hb' in Hb. discriminate.
Qed.

Lemma attempt_success r v :
  outcome = Resolves r -> ok r = true -> success_value r = Some v ->
  run = (Returned (Return v), w ++ [Fetch url init]).
Proof.
  intros Ho Hok Hv. unfold request_attempt, try_catch.
  rewrite (try_success r v Ho Hok Hv). reflexivity.
Qed.

Lemma attempt_retried_status r :
  outcome = Resolves r -> ok r = false -> retried_status (status r) = true ->
  attempt < retries ->
  run = (Returned Continue, w ++ [Fetch url init; backoff]).
Proof.
  intros Ho Hok Hst Hlt. unfold request_attempt, try_catch.
  rewrite (try_retried_status r Ho Hok Hst).
  rewrite retry_or_throw_continue by assumption.
  rewrite <- app_assoc. reflexivity.
Qed.

Lemma attempt_exhausted_status r :
  outcome = Resolves r -> ok r = false -> retried_status (status r) = true ->
  retries <= attempt ->
  run = (Thrown (exhausted_failure endpoint r), w ++ [Fetch url init]).
Proof.
  intros Ho Hok Hst Hge. unfold request_attempt, try_catch.
  rewrite (try_retried_status r Ho Hok Hst).
  rewrite retry_or_throw_exhausted by assumption.
  apply catch_custom.
Qed.

(** What an attempt does after the transport rejected with [x]. *)
Lemma attempt_rejected x :
  rejected_with outcome x ->
  run = request_catch env endpoint retries attempt (Foreign x) (w ++ [Fetch url init]).
Proof.
  intros [Ho|(r & Ho & Hok & Hd & Hj)]; unfold request_attempt, try_catch.
  - rewrite (try_rejected x Ho). reflexivity.
  - rewrite (try_body_rejected r x Ho Hok Hd Hj). reflexivity.
Qed.

Lemma transient_cases :
  (exists r v, outcome = Resolves r /\ ok r = true /\ success_value r = Some v /\
               transient outcome = false)
  \/ (exists r, outcome = Resolves r /\ ok r = false /\
                transient outcome = retried_status (status r))
  \/ (exists x, rejected_with outcome x /\ transient outcome = fetch_type_error x).
Proof.
  unfold rejected_with, transient, success_value.
  destruct outcome as [r|x]; [|right; right; eauto].
  destruct (ok r) eqn:Hok; [|right; left; eauto].
  destruct (declares_json r) eqn:Hd.
  - destruct (json r) as [v|x] eqn:Hj.
    + left. exists r, v. rewrite Hd, Hj. auto.
    + right; right. exists x. split; [right; eauto 10 | reflexivity].
  - left. exists r, VNull. rewrite Hd. auto.
Qed.

Lemma attempt_cases :
  (transient outcome = true /\ attempt < retries /\
   run = (Returned Continue, w ++ [Fetch url init; backoff]))
  \/
  (exists c, run = (c, w ++ [Fetch url init]) /\ c <> Returned Continue /\
             (transient outcome = true -> retries <= attempt) /\
             (forall e, c = Thrown e -> attempt_failure outcome e)).
Proof.
  destruct transient_cases
    as [(r & v & Ho & Hok & Hv & ->)|[(r & Ho & Hok & ->)|(x & Hx & ->)]].
  - right. rewrite (attempt_success r v Ho Hok Hv).
    eexists; split; [reflexivity|]. repeat split; try discriminate.
  - destruct (retried_status (status r)) eqn:Hst.
    + destruct (Z.ltb_spec attempt retries) as [Hlt|Hge].
      * left. rewrite (attempt_retried_status r Ho Hok Hst Hlt). auto.
      * right. rewrite (attempt_exhausted_status r Ho Hok Hst Hge).
        eexists; split; [reflexivity|]. repeat split; try discriminate; auto.
        intros e [= <-]. simpl. exists r. repeat split; auto.
        { unfold retried_status in Hst. intros E. rewrite E in Hst. discriminate. }
        { intros Hb. rewrite (retried_not_body _ Hst) in Hb. discriminate. }
    + right. destruct (attempt_terminal_status r Ho Hok Hst) as (e & He & Hk).
      rewrite He.
      eexists; split; [reflexivity|]. repeat split; try discriminate.
      intros e' [= <-]. exact Hk.
  - rewrite (attempt_rejected x Hx).
    destruct (fetch_type_error x) eqn:Hf.
    + rewrite catch_classified by assumption.
      destruct (Z.ltb_spec attempt retries) as [Hlt|Hge].
      * left. rewrite retry_or_throw_continue by assumption.
        rewrite <- app_assoc. auto.
      * right. rewrite retry_or_throw_exhausted by assumption.
        eexists; split; [reflexivity|]. repeat split; try discriminate; auto.
        intros e [= <-]. simpl. eauto.
    + right. rewrite catch_unclassified by assumption.
      eexists; split; [reflexivity|]. repeat split; try discriminate.
      intros e [= <-]. simpl. split; [reflexivity|]. left. exists x.
      rewrite Hf. auto.
Qed.

End OneAttempt.

(** *** The loop *)

Section Loop.

Variables (endpoint : string) (options : RequestInit) (retries : Z).

Local Abbreviation url := (url_of env endpoint).
Local Abbreviation init := (fetch_init options).
Local Abbreviation body := (request_attempt env transport endpoint options retries).
Local Abbreviation loop_from a := (for_attempts body (seqZ a (retries + 1 - a))).

Lemma loop_unfold a w :
  a <= retries ->
  loop_from a w =
  match body a w with
  | (Returned Continue, w') => loop_from (a + 1) w'
  | (Returned (Return v), w') => (Returned v, w')
  | (Thrown e, w') => (Thrown e, w')
  end.
Proof.
  intros Ha. rewrite seqZ_cons by lia. simpl. unfold bind.
  replace (Z.pred (retries + 1 - a)) with (retries + 1 - (a + 1)) by lia.
  replace (Z.succ a) with (a + 1) by lia.
  destruct (body a w) as [[[|v]|e] w']; reflexivity.
Qed.

Lemma request_unfold w :
  request env transport endpoint options retries w = loop_from 0 w.
Proof. unfold request. rewrite Z.sub_0_r. reflexivity. Qed.

(** A failure of the loop is the failure of its last attempt. *)
Lemma loop_thrown (attempts : list Z) w e w' :
  for_attempts body attempts w = (Thrown e, w') ->
  exists a w1, body a w1 = (Thrown e, w').
Proof.
  revert w. induction attempts as [|a rest IH]; intros w; simpl.
  - discriminate.
  - unfold bind. destruct (body a w) as [[[|v]|e0] w1] eqn:Hb.
    + apply IH.
    + discriminate.
    + intros [= <- <-]. eauto.
Qed.

(** [n] attempts answered with a retried status, then a final outcome. *)
Lemma loop_retried (n : nat) : forall a w,
  a + Z.of_nat n <= retries ->
  (forall i, (i < n)%nat ->
     exists r, transport (fetch_count w + i)%nat url init = Resolves r /\
               ok r = false /\ retried_status (status r) = true) ->
  exists w1,
    loop_from a w = loop_from (a + Z.of_nat n) w1 /\
    fetch_count w1 = (fetch_count w + n)%nat /\
    (forall k, w1 ++ attempts_trace env url init (a + Z.of_nat n) (S k) =
               w ++ attempts_trace env url init a (S (n + k))).
Proof.
  induction n as [|n IH]; intros a w Ha Hfail.
  - exists w. rewrite Z.add_0_r, Nat.add_0_r. auto.
  - destruct (Hfail 0%nat ltac:(lia)) as (r & Ho & Hok & Hst).
    rewrite Nat.add_0_r in Ho.
    rewrite loop_unfold by lia.
    rewrite (attempt_retried_status endpoint options retries a w r Ho Hok Hst) by lia.
    set (w0 := w ++ [Fetch url init; SetTimeout (timer_of env (2 ^ a * 1000))]).
    assert (Hc : fetch_count w0 = S (fetch_count w)).
    { unfold w0. rewrite fetch_count_app. simpl. lia. }
    destruct (IH (a + 1) w0) as (w1 & Hloop & Hcount & Htrace).
    + lia.
    + intros i Hi. rewrite Hc.
      replace (S (fetch_count w) + i)%nat with (fetch_count w + S i)%nat by lia.
      apply Hfail. lia.
    + exists w1.
      replace (a + Z.of_nat (S n)) with (a + 1 + Z.of_nat n) by lia.
      split; [exact Hloop|]. split; [lia|].
      intros k. rewrite Htrace.
      unfold w0. rewrite timer_backoff, <- app_assoc. reflexivity.
Qed.

Lemma timers_attempts_trace (n : nat) : forall a,
  timers (attempts_trace env url init a (S n)) =
  map (backoff_ms env) (seqZ a (Z.of_nat n)).
Proof.
  induction n as [|n IH]; intros a; [reflexivity|].
  change (attempts_trace env url init a (S (S n)))
    with (Fetch url init :: SetTimeout (backoff_ms env a)
            :: attempts_trace env url init (a + 1) (S n)).
  cbn [timers]. rewrite IH, (seqZ_cons a) by lia.
  replace (Z.pred (Z.of_nat (S n))) with (Z.of_nat n) by lia.
  replace (Z.succ a) with (a + 1) by lia. reflexivity.
Qed.

(** C1. The request operation is a bounded retry loop. When the first
    [k - 1] attempts are answered with a status in {429, 502, 503, 504} and
    [k] is at most [retries + 1] (4 for the default ceiling of 3): if attempt
    [k] is answered with a success, the operation returns the value of that
    response; if attempt [k] is the last one allowed and is answered with a
    status of that set again, it throws an [ApiError] with that status and the
    message "Rate limit exceeded" (429) or "Service temporarily unavailable".
    In both cases the transport was invoked exactly [k] times, and the timers
    between consecutive invocations are the waits of attempts
    [0, 1, ..., k - 2]: [2^0, 2^1, ..., 2^(k-2)] seconds (a tenth of each
    under test). *)
Theorem request_bounded_retry (w : World) (k : nat) (r : Response) :
  (1 <= k)%nat -> Z.of_nat k <= retries + 1 ->
  (forall i, (i < k - 1)%nat ->
     exists r', transport (fetch_count w + i)%nat url init = Resolves r' /\
                ok r' = false /\ retried_status (status r') = true) ->
  transport (fetch_count w + (k - 1))%nat url init = Resolves r ->
  (forall v, ok r = true -> success_value r = Some v ->
     request env transport endpoint options retries w =
     (Returned v, w ++ attempts_trace env url init 0 k)) /\
  (ok r = false -> retried_status (status r) = true -> Z.of_nat k = retries + 1 ->
     request env transport endpoint options retries w =
     (Thrown (Custom (ApiError (status r)
                        (if status r =? 429 then "Too Many Requests" else statusText r)
                        (exhausted_message (status r)) endpoint)),
      w ++ attempts_trace env url init 0 k)) /\
  fetch_count (attempts_trace env url init 0 k) = k /\
  timers (attempts_trace env url init 0 k) =
  map (backoff_ms env) (seqZ 0 (Z.of_nat k - 1)) /\
  (MODE env <> "test" -> forall i, backoff_ms env i = 2 ^ i * 1000).
Proof.
  intros Hk1 Hk Hfail Hlast.
  destruct k as [|n]; [lia|]. clear Hk1.
  replace (S n - 1)%nat with n in * by lia.
  destruct (loop_retried n 0 w ltac:(lia) Hfail) as (w1 & Hloop & Hcount & Htrace).
  specialize (Htrace 0%nat). rewrite Nat.add_0_r in Htrace.
  rewrite <- Hcount in Hlast.
  rewrite request_unfold, Hloop, loop_unfold by lia.
  split; [|split; [|split; [|split]]].
  - intros v Hok Hv.
    rewrite (attempt_success endpoint options retries _ w1 r v Hlast Hok Hv).
    rewrite <- Htrace. reflexivity.
  - intros Hok Hst Hend.
    rewrite (attempt_exhausted_status endpoint options retries _ w1 r Hlast Hok Hst)
      by lia.
    rewrite <- Htrace. reflexivity.
  - apply fetch_count_attempts_trace.
  - rewrite timers_attempts_trace. f_equal. f_equal. lia.
  - intros Hmode i. unfold backoff_ms.
    destruct (String.eqb_spec (MODE env) "test"); [contradiction | reflexivity].
Qed.

Lemma request_first_attempt w c w1 :
  0 <= retries -> body 0 w = (c, w1) -> c <> Returned Continue ->
  request env transport endpoint options retries w =
  (match c with
   | Returned (Return v) => Returned v
   | Returned Continue => Returned VUndefined
   | Thrown e => Thrown e
   end, w1).
Proof.
  intros Hr Hb Hc. rewrite request_unfold, loop_unfold, Hb by lia.
  destruct c as [[|v]|e]; [contradiction| |]; reflexivity.
Qed.

(** C10. An attempt outcome that is not a retried one ends the operation
    after exactly one transport invocation and without any timer: a
    success returns its value, a rejection that is not classified as a
    transport failure throws, and a failed response whose status is
    outside {429, 502, 503, 504} throws. Conversely, whenever the
    operation does anything else than that single invocation, the outcome
    of the first attempt was a response with a status of that set or a
    classified transport failure. *)
Theorem request_single_attempt (w : World) :
  0 <= retries ->
  (forall r v,
     transport (fetch_count w) url init = Resolves r ->
     ok r = true -> success_value r = Some v ->
     request env transport endpoint options retries w =
     (Returned v, w ++ [Fetch url init])) /\
  (forall x,
     rejected_with (transport (fetch_count w) url init) x ->
     fetch_type_error x = false ->
     exists e, request env transport endpoint options retries w =
               (Thrown e, w ++ [Fetch url init])) /\
  (forall r,
     transport (fetch_count w) url init = Resolves r ->
     ok r = false -> retried_status (status r) = false ->
     exists e, request env transport endpoint options retries w =
               (Thrown e, w ++ [Fetch url init])) /\
  (forall c w',
     request env transport endpoint options retries w = (c, w') ->
     w' <> w ++ [Fetch url init] ->
     (exists r, transport (fetch_count w) url init = Resolves r /\
                ok r = false /\ retried_status (status r) = true) \/
     (exists x, rejected_with (transport (fetch_count w) url init) x /\
                fetch_type_error x = true)).
Proof.
  intros Hr. repeat split.
  - intros r v Ho Hok Hv.
    rewrite (request_first_attempt w _ _ Hr
               (attempt_success endpoint options retries 0 w r v Ho Hok Hv));
      [reflexivity | discriminate].
  - intros x Hx Hf.
    pose proof (attempt_rejected endpoint options retries 0 w x Hx) as Hb.
    rewrite catch_unclassified in Hb by assumption.
    rewrite (request_first_attempt w _ _ Hr Hb); [eauto | discriminate].
  - intros r Ho Hok Hst.
    destruct (attempt_terminal_status endpoint options retries 0 w r Ho Hok Hst)
      as (e & Hb & _).
    rewrite (request_first_attempt w _ _ Hr Hb); [eauto | discriminate].
  - intros c w' Hreq Hw'.
    destruct (attempt_cases endpoint options retries 0 w)
      as [(Ht & _ & _)|(c0 & Hb & Hc0 & _ & _)].
    + destruct (transient_cases endpoint options w)
        as [(r & v & _ & _ & _ & E)|[(r & Ho & Hok & E)|(x & Hx & E)]].
      * congruence.
      * left. exists r. rewrite <- E. auto.
      * right. exists x. rewrite <- E. auto.
    + rewrite (request_first_attempt w _ _ Hr Hb Hc0) in Hreq.
      injection Hreq as _ <-. contradiction.
Qed.

(** Every failure of the operation is the failure of its last attempt,
    classified by the outcome of the last transport invocation. *)
Lemma request_attempt_failure (w : World) (e : Value) (w' : World) :
  request env transport endpoint options retries w = (Thrown e, w') ->
  attempt_failure (transport (Nat.pred (fetch_count w')) url init) e.
Proof.
  unfold request. intros Hreq.
  apply loop_thrown in Hreq as (a & w1 & Hb).
  destruct (attempt_cases endpoint options retries a w1)
    as [(_ & _ & E)|(c & E & _ & _ & Hkind)]; rewrite E in Hb.
  - discriminate.
  - injection Hb as -> <-.
    rewrite fetch_count_app. simpl.
    replace (Nat.pred (fetch_count w1 + 1)) with (fetch_count w1) by lia.
    apply Hkind. reflexivity.
Qed.

(** C4, as the code has it. For a transport all of whose [TypeError]s
    mention fetch, every failure thrown by the request operation is
    classified by the outcome of its last transport invocation: a
    [NetworkError] when the transport rejected with such a [TypeError]; an
    [ApiError] carrying the status of a failed response other than 400; a
    [ValidationError] when that status is 400; and a plain [Error] whose
    message starts with "Unexpected error: " in two cases: the transport
    rejected with a value that is no [TypeError] (the JSON body of a
    successful response could not be parsed, the request was aborted), or
    the response failed with a status whose failure carries the body's
    message and that message cannot be converted to a string. *)
Theorem request_failure_kinds (w : World) (e : Value) (w' : World) :
  type_errors_mention_fetch transport ->
  request env transport endpoint options retries w = (Thrown e, w') ->
  failure_kind (transport (Nat.pred (fetch_count w')) url init) e.
Proof.
  intros Hte Hreq. apply request_attempt_failure in Hreq.
  revert Hreq. unfold failure_kind, attempt_failure.
  destruct e as [e|[m|name m|v]]; simpl; try exact (fun H => H).
  intros [Hname [(x & Hx & Hu & Hm)|Hconv]]; (split; [exact Hname|]); [left|right; exact Hconv].
  exists x. repeat split; try assumption.
  destruct x as [mx|nx mx|vx]; try reflexivity.
  simpl in Hu. apply Hte in Hx. rewrite Hx in Hu. discriminate.
Qed.

End Loop.

(** *** What the operation sends *)

Section Sent.

Variables (endpoint : string) (options : RequestInit) (retries : Z).

Local Abbreviation url := (url_of env endpoint).
Local Abbreviation init := (fetch_init options).
Local Abbreviation body := (request_attempt env transport endpoint options retries).

Local Abbreviation sent_by_request := (sent_by_request env endpoint options).

Lemma loop_trace (attempts : list Z) : forall w c w',
  for_attempts body attempts w = (c, w') ->
  exists rest, w' = w ++ rest /\ Forall sent_by_request rest.
Proof.
  induction attempts as [|a l IH]; intros w c w'; simpl.
  - intros [= _ <-]. exists []. rewrite app_nil_r. auto.
  - unfold bind.
    destruct (attempt_cases endpoint options retries a w)
      as [(_ & _ & E)|(c0 & E & Hc0 & _ & _)]; rewrite E.
    + intros H. apply IH in H as (rest & -> & Hrest).
      exists ([Fetch url init; SetTimeout (timer_of env (2 ^ a * 1000))] ++ rest).
      rewrite app_assoc. split; [reflexivity|].
      apply Forall_app. split; [|assumption].
      repeat constructor.
    + destruct c0 as [[|v]|e]; [contradiction| |]; intros [= _ <-];
        exists [Fetch url init]; split; auto; repeat constructor.
Qed.

Lemma request_invokes_transport w :
  0 <= retries ->
  exists c rest,
    request env transport endpoint options retries w = (c, w ++ Fetch url init :: rest).
Proof.
  intros Hr. rewrite request_unfold, loop_unfold by lia.
  destruct (attempt_cases endpoint options retries 0 w)
    as [(_ & _ & E)|(c0 & E & Hc0 & _ & _)]; rewrite E.
  - destruct (for_attempts body (seqZ (0 + 1) (retries + 1 - (0 + 1)))
                (w ++ [Fetch url init; SetTimeout (timer_of env (2 ^ 0 * 1000))]))
      as [c w'] eqn:Hl.
    apply loop_trace in Hl as (rest & -> & _).
    exists c. eexists. rewrite <- app_assoc. reflexivity.
  - destruct c0 as [[|v]|e]; [contradiction| |]; eauto.
Qed.

Lemma request_trace w c w' :
  request env transport endpoint options retries w = (c, w') ->
  exists rest, w' = w ++ rest /\ Forall sent_by_request rest.
Proof. apply loop_trace. Qed.

(** A retried outcome is followed by a second attempt when one is allowed. *)
Lemma request_second_attempt w :
  1 <= retries ->
  transient (transport (fetch_count w) url init) = true ->
  exists c rest,
    request env transport endpoint options retries w =
    (c, w ++ Fetch url init :: SetTimeout (backoff_ms env 0) :: Fetch url init :: rest).
Proof.
  intros Hr Ht. rewrite request_unfold, loop_unfold by lia.
  destruct (attempt_cases endpoint options retries 0 w)
    as [(_ & _ & E)|(c0 & _ & _ & Hge & _)]; [|specialize (Hge Ht); lia].
  rewrite E, timer_backoff, loop_unfold by lia.
  set (w1 := w ++ [Fetch url init; SetTimeout (backoff_ms env 0)]).
  assert (Hw1 : forall rest, w1 ++ Fetch url init :: rest =
                             w ++ Fetch url init :: SetTimeout (backoff_ms env 0)
                               :: Fetch url init :: rest).
  { intros rest. unfold w1. rewrite <- app_assoc. reflexivity. }
  destruct (attempt_cases endpoint options retries (0 + 1) w1)
    as [(_ & _ & E1)|(c1 & E1 & Hc1 & _ & _)]; rewrite E1.
  - destruct (for_attempts body (seqZ (0 + 1 + 1) (retries + 1 - (0 + 1 + 1)))
                (w1 ++ [Fetch url init; SetTimeout (timer_of env (2 ^ (0 + 1) * 1000))]))
      as [c w'] eqn:Hl.
    apply loop_trace in Hl as (rest & -> & _).
    exists c. eexists. rewrite <- app_assoc. simpl. rewrite Hw1. reflexivity.
  - destruct c1 as [[|v]|e]; [contradiction| |]; eexists; exists []; rewrite Hw1;
      reflexivity.
Qed.

Lemma attempt_404 attempt w r :
  transport (fetch_count w) url init = Resolves r -> ok r = false -> status r = 404 ->
  body attempt w =
  (Thrown (Custom (ApiError 404 "Not Found" ("Resource not found: " ++ endpoint)%string
                     endpoint)),
   w ++ [Fetch url init]).
Proof.
  intros Ho Hok Hst.
  unfold request_attempt, try_catch, request_try, bind. fold (url_of env endpoint).
  rewrite fetch_run, Ho, Hok, read_error_message_run.
  rewrite Hst. reflexivity.
Qed.

End Sent.

(** *** The facade *)

Section Facade.

Lemma lookup_prop_absent data field :
  Js.has_own data field = false -> Js.lookup_prop data field = VUndefined.
Proof.
  induction data as [|[k v] rest IH]; simpl; [reflexivity|].
  destruct (String.eqb k field); [discriminate | exact IH].
Qed.

(** On a member name that plain objects do not inherit, [data[field]] is
    the member of the object's own. *)
Lemma member_truthy_own data field :
  Js.inherited field = false ->
  Js.member_truthy data field = Js.truthy (Js.lookup_prop data field).
Proof.
  intros Hi. unfold Js.member_truthy.
  destruct (Js.has_own data field) eqn:Ho; [reflexivity|].
  rewrite (lookup_prop_absent _ _ Ho), Hi. reflexivity.
Qed.

Lemma validateRequired_lacks data fields field w :
  In field fields -> Js.inherited field = false -> lacks data field = true ->
  exists m f, validateRequired data fields w = (Thrown (Custom (ValidationError m f)), w).
Proof.
  intros Hin Hi Hl. induction fields as [|f0 rest IH]; [destruct Hin|].
  simpl. destruct (Js.member_truthy data f0) eqn:Ht; simpl.
  - destruct Hin as [->|Hin]; [|auto].
    rewrite (member_truthy_own _ _ Hi) in Ht.
    unfold lacks in Hl. destruct (Js.lookup_prop data field); try discriminate.
    simpl in Ht. rewrite Hl in Ht. discriminate.
  - unfold throw. eauto.
Qed.

Lemma blank_empty s : String.eqb s "" = true -> blank s = true.
Proof. intros H. unfold blank. simpl. rewrite H. reflexivity. Qed.

(** C5, as the code has it. A user or series method called with a
    required input missing or empty throws a [ValidationError] and leaves
    the trace as it was: the transport is not invoked. A friend or
    favorite-list method checks nothing: for all arguments, the empty string
    included, the call is the engine's request at the endpoint built from
    them, which invokes the transport. *)
Theorem validated_call_rejects_missing_input (c : FacadeCall) (w : World) :
  (validates_inputs c = true ->
   required_input_missing c = true ->
   exists m f, invoke env transport c w = (Thrown (Custom (ValidationError m f)), w)) /\
  (friend_or_favorite c = true ->
   exists endpoint options,
     invoke env transport c = request env transport endpoint options 3 /\
     exists res rest,
       invoke env transport c w =
       (res, w ++ Fetch (url_of env endpoint) (fetch_init options) :: rest)).
Proof.
  split.
  - intros Hv Hm. destruct c; try discriminate Hv; simpl in Hm; simpl.
    all: repeat match type of Hm with
           | _ || _ = true => apply orb_prop in Hm as [Hm|Hm]
           end.
    all: try (apply blank_empty in Hm).
    all: try (unfold getUser, getUserByEmail, getUserByUsername, updateUser, deleteUser,
              getSeries, getUserSeries, updateSeries, deleteSeries, likeSeries,
              unlikeSeries, throw, validation_error;
              rewrite Hm; rewrite ?orb_true_r; simpl; eauto; fail).
    all: unfold createUser, createSeries, bind.
    all: match goal with
         | H : lacks ?d ?f = true |- context [validateRequired ?d ?l ?w0] =>
             destruct (validateRequired_lacks d l f w0) as (m & fld & ->);
             [simpl; auto | reflexivity | exact H | eauto]
         end.
  - intros Hf. destruct c; try discriminate Hf; simpl.
    all: eexists _, _; split; [reflexivity|].
    all: apply request_invokes_transport; lia.
Qed.

(** C8, as the code has it. [updateUser] and [updateSeries] called with
    an update payload without any field throw a [ValidationError] and
    leave the trace as it was; [updateFavoriteList] makes no such check
    and sends the request. *)
Theorem update_rejects_empty_payload (id userId listId : string) (w : World) :
  updateUser env transport id [] w =
  (Thrown (validation_error
             (if blank id then "User ID is required" else "Update data is required")), w)
  /\
  updateSeries env transport id userId [] w =
  (Thrown (validation_error
             (if blank id || blank userId then "Series ID and User ID are required"
              else "Update data is required")), w)
  /\
  exists c rest,
    updateFavoriteList env transport userId listId [] w =
    (c, w ++ Fetch (url_of env ("/users/" ++ userId ++ "/favorites/" ++ listId)%string)
               (fetch_init (with_body "PUT" [])) :: rest).
Proof.
  split; [|split].
  - unfold updateUser. destruct (blank id); reflexivity.
  - unfold updateSeries. destruct (blank id || blank userId); reflexivity.
  - unfold updateFavoriteList. apply request_invokes_transport. lia.
Qed.

Lemma not_blank s : s <> "" -> blank s = false.
Proof.
  intros H. unfold blank. simpl.
  destruct (String.eqb_spec s ""); [contradiction | reflexivity].
Qed.

Lemma empty_on_404_other e w :
  (forall text m ep, e <> Custom (ApiError 404 text m ep)) ->
  empty_on_404 e w = (Thrown e, w).
Proof.
  intros H. unfold empty_on_404.
  destruct e as [[st text m ep| |]|]; try reflexivity.
  simpl. destruct (Z.eqb_spec st 404) as [->|]; [|reflexivity].
  exfalso. eapply H. reflexivity.
Qed.

(** C6. For a non-empty [userId], [getUserSeries] and
    [getRecommendations] return the empty list when the transport answers
    with status 404 (and whenever the request engine fails with the
    [ApiError] of a 404), and they rethrow unchanged every other failure of
    the request engine. *)
Theorem list_reads_404 (userId : string) (w : World) :
  userId <> "" ->
  (forall r,
     transport (fetch_count w) (url_of env ("/series/user/" ++ userId)%string)
       (fetch_init no_options) = Resolves r ->
     ok r = false -> status r = 404 ->
     getUserSeries env transport userId w =
     (Returned (VArr []),
      w ++ [Fetch (url_of env ("/series/user/" ++ userId)%string)
              (fetch_init no_options)])) /\
  (forall r,
     transport (fetch_count w) (url_of env ("/series/recommendations/" ++ userId)%string)
       (fetch_init no_options) = Resolves r ->
     ok r = false -> status r = 404 ->
     getRecommendations env transport (Some userId) w =
     (Returned (VArr []),
      w ++ [Fetch (url_of env ("/series/recommendations/" ++ userId)%string)
              (fetch_init no_options)])) /\
  (forall text m ep w',
     request env transport ("/series/user/" ++ userId)%string no_options 3 w
     = (Thrown (Custom (ApiError 404 text m ep)), w') ->
     getUserSeries env transport userId w = (Returned (VArr []), w')) /\
  (forall text m ep w',
     request env transport ("/series/recommendations/" ++ userId)%string no_options 3 w
     = (Thrown (Custom (ApiError 404 text m ep)), w') ->
     getRecommendations env transport (Some userId) w = (Returned (VArr []), w')) /\
  (forall e w',
     request env transport ("/series/user/" ++ userId)%string no_options 3 w
     = (Thrown e, w') ->
     (forall text m ep, e <> Custom (ApiError 404 text m ep)) ->
     getUserSeries env transport userId w = (Thrown e, w')) /\
  (forall e w',
     request env transport ("/series/recommendations/" ++ userId)%string no_options 3 w
     = (Thrown e, w') ->
     (forall text m ep, e <> Custom (ApiError 404 text m ep)) ->
     getRecommendations env transport (Some userId) w = (Thrown e, w')).
Proof.
  intros Hu. pose proof (not_blank userId Hu) as Hb.
  assert (Ht : Js.truthy (VStr userId) = true).
  { unfold blank in Hb. destruct (Js.truthy (VStr userId)); [reflexivity|discriminate]. }
  unfold getUserSeries, getRecommendations. rewrite Hb, Ht.
  unfold try_catch. repeat split.
  - intros r Ho Hok Hst.
    pose proof (attempt_404 _ no_options 3 0 w r Ho Hok Hst) as Hb0.
    apply request_first_attempt in Hb0; [|lia|discriminate].
    rewrite Hb0. reflexivity.
  - intros r Ho Hok Hst.
    pose proof (attempt_404 _ no_options 3 0 w r Ho Hok Hst) as Hb0.
    apply request_first_attempt in Hb0; [|lia|discriminate].
    rewrite Hb0. reflexivity.
  - intros text m ep w' ->. reflexivity.
  - intros text m ep w' ->. reflexivity.
  - intros e w' -> He. apply empty_on_404_other, He.
  - intros e w' -> He. apply empty_on_404_other, He.
Qed.

End Facade.

End EngineFacts.

(** ** Headers of the issued request *)

(** The inner object literal merges as intended: the default, overridden by
    a caller's header of the same name, next to the caller's other headers. *)
Lemma default_headers_lookup (options : RequestInit) (k : string) :
  default_headers options !! k =
  match headers options with
  | Some h =>
      match h !! k with
      | Some v => Some v
      | None => if String.eqb k "Content-Type" then Some "application/json"%string else None
      end
  | None => if String.eqb k "Content-Type" then Some "application/json"%string else None
  end.
Proof.
  assert (Hs : ({[ "Content-Type"%string := "application/json"%string ]}
                : gmap string string) !! k =
               if String.eqb k "Content-Type" then Some "application/json"%string else None).
  { destruct (String.eqb_spec k "Content-Type") as [->|Hne].
    - apply lookup_singleton_eq.
    - apply lookup_singleton_ne. congruence. }
  unfold default_headers. destruct (headers options) as [h|]; [|exact Hs].
  rewrite lookup_union. rewrite Hs.
  destruct (h !! k), (String.eqb k "Content-Type"); reflexivity.
Qed.

(** The outer spread then replaces that merged object by the caller's own
    [headers] member whenever there is one. *)
Lemma fetch_init_caller_headers (options : RequestInit) (h : gmap string string) :
  headers options = Some h -> headers (fetch_init options) = Some h.
Proof. intros H. unfold fetch_init, spread_init. simpl. rewrite H. reflexivity. Qed.

Lemma fetch_init_no_caller_headers (options : RequestInit) :
  headers options = None ->
  headers (fetch_init options) = Some {[ "Content-Type"%string := "application/json"%string ]}.
Proof.
  intros H. unfold fetch_init, spread_init, default_headers. simpl. rewrite H. reflexivity.
Qed.

(** C7, at the failing input. A caller that supplies the single header
    [Authorization] gets a request issued with that header alone: the
    default [Content-Type: application/json] is not sent. *)
Theorem request_drops_default_content_type :
  exists init,
    request dev_env (always (Resolves r200)) "/users/1"
      {| method := None; headers := Some {[ "Authorization"%string := "Bearer t"%string ]};
         body := None |} 3 []
    = (Returned user1, [Fetch "http://localhost:7071/api/users/1" init]) /\
    headers init = Some {[ "Authorization"%string := "Bearer t"%string ]} /\
    forall h, headers init = Some h -> h !! "Content-Type"%string = None.
Proof.
  eexists. split; [reflexivity|]. split; [reflexivity|].
  intros h [= <-]. apply lookup_singleton_ne. discriminate.
Qed.

(** ** Classification of retryable errors *)

(** C3. [isRetryableError] answers true exactly for a [NetworkError] and for
    an [ApiError] whose status is 408, 429, 502, 503 or 504; in particular it
    answers false for every [ValidationError] and for every value that is
    not an instance of the client's error classes. *)
Theorem isRetryableError_spec (e : Value) :
  (isRetryableError e = true <->
   (exists message endpoint, e = Custom (NetworkError message endpoint)) \/
   (exists st text message endpoint,
      e = Custom (ApiError st text message endpoint) /\
      (st = 408 \/ st = 429 \/ st = 502 \/ st = 503 \/ st = 504))) /\
  (forall message field, isRetryableError (Custom (ValidationError message field)) = false) /\
  (forall x, isRetryableError (Foreign x) = false).
Proof.
  split; [|split; reflexivity].
  split.
  - destruct e as [[st text m ep|m ep|m f]|x]; simpl; try discriminate.
    + intros H. right. exists st, text, m, ep. split; [reflexivity|].
      unfold Js.array_includes in H. simpl in H.
      rewrite !orb_true_iff, !Z.eqb_eq in H. intuition (auto; discriminate).
    + intros _. left. eauto.
  - intros [(m & ep & ->)|(st & text & m & ep & -> & H)]; [reflexivity|].
    simpl. unfold Js.array_includes. simpl.
    rewrite !orb_true_iff, !Z.eqb_eq. intuition auto.
Qed.

(** ** The stateful call adapter *)

(** [retry] reads the [error] cell, which holds the display message, a
    string: [isRetryableError] answers false on it, whatever failure the
    message was derived from. *)
Lemma retry_always_throws (options : UseApiOptions) (apiCall : M jsval) (st : CallState)
    (w : World) :
  UseApi.retry options apiCall st w =
  (Thrown (new_Error "Cannot retry this operation"), st, w).
Proof. unfold UseApi.retry. simpl. rewrite andb_false_r. reflexivity. Qed.

Lemma canRetry_false (st : CallState) : UseApi.canRetry st = false.
Proof. unfold UseApi.canRetry. simpl. apply andb_false_r. Qed.

(** C2, at the failing input. [getUser("1")] run through [execute] while the
    server cannot be reached fails with a [NetworkError], which
    [isRetryableError] classifies retryable; the adapter stores the display
    message, and [retry] on that state throws "Cannot retry this operation"
    without calling [execute]: state and trace are unchanged. *)
Theorem retry_refuses_retryable_failure :
  exists e st1 w1,
    UseApi.execute no_callbacks (getUser dev_env offline "1") initial_state []
    = (Thrown e, st1, w1) /\
    isRetryableError e = true /\
    error st1 = Some (getErrorMessage e) /\
    UseApi.retry no_callbacks (getUser dev_env offline "1") st1 w1
    = (Thrown (new_Error "Cannot retry this operation"), st1, w1).
Proof.
  do 3 eexists. split; [reflexivity|]. split; [reflexivity|]. split; [reflexivity|].
  apply retry_always_throws.
Qed.




(** ** Concrete runs *)

(** The scenarios of the test suite. *)

Example retry_on_503 :
  let '(c, w) := getUser dev_env (scripted [Resolves r503] (Resolves r200)) "1" [] in
  c = Returned user1 /\ fetch_count w = 2%nat /\ timers w = [1000].
Proof. repeat split. Qed.

Example fail_after_max_retries :
  let '(c, w) := getUser dev_env (always (Resolves r503)) "1" [] in
  c = Thrown (Custom (ApiError 503 "Service Unavailable" "Service temporarily unavailable"
                        "/users/1")) /\
  fetch_count w = 4%nat /\ timers w = [1000; 2000; 4000].
Proof. repeat split. Qed.

Example reduced_delays_under_test :
  timers (snd (getUser test_env (always (Resolves r503)) "1" [])) = [100; 200; 400].
Proof. reflexivity. Qed.

Example network_errors :
  fst (getUser dev_env offline "1" []) =
  Thrown (Custom (NetworkError
                    "Network connection failed. Please check your internet connection."
                    "/users/1")).
Proof. reflexivity. Qed.

Example conflict_on_createUser :
  fst (createUser dev_env
         (always (Resolves (json_response 409 "Conflict"
                              (VObj [("message", VStr "User already exists")]))))
         [("username", VStr "existing"); ("email", VStr "existing@example.com");
          ("displayName", VStr "Existing User")] []) =
  Thrown (Custom (ValidationError "Username or email already exists" None)).
Proof. reflexivity. Qed.

Example encodeURIComponent_email :
  Js.encodeURIComponent "test+tag@example.com" = "test%2Btag%40example.com"%string.
Proof. reflexivity. Qed.

Example ToString_array :
  Js.ToString (VArr [VNum 5; VNull; VStr "a"; VArr [VBool true; VNum (-12)]])
  = Some "5,,a,true,-12"%string.
Proof. reflexivity. Qed.

Example ToString_objects :
  Js.ToString (VObj [("code", VNum 7)]) = Some "[object Object]"%string /\
  Js.ToString (VObj [("toString", VNum 1)]) = None /\
  Js.ToString (VArr [VStr "a"; VObj [("toString", VNull)]]) = None.
Proof. repeat split. Qed.

(** A 400 whose body offers a message that cannot be converted: the
    [TypeError] raised while the [ValidationError] is built is caught by the
    engine's own catch clause and reported as an unexpected error. *)
Example unconvertible_message :
  request dev_env (always (Resolves r400_unconvertible)) "/users" no_options 3 [] =
  (Thrown (new_Error "Unexpected error: Cannot convert object to primitive value"),
   [Fetch "http://localhost:7071/api/users" (fetch_init no_options)]).
Proof. reflexivity. Qed.

(** [data[field]] reads inherited members too. *)
Example validateRequired_inherited_member :
  validateRequired [] ["constructor"] [] = (Returned tt, []) /\
  validateRequired [("constructor", VNull)] ["constructor"] [] =
  (Thrown (Custom (ValidationError "constructor is required" (Some "constructor"))), []).
Proof. split; reflexivity. Qed.

Example includes_json :
  Js.includes "application/json; charset=utf-8" "application/json" = true.
Proof. reflexivity. Qed.

(** *** Instances of the theorems *)

Lemma request_bounded_retry_witness :
  request dev_env (scripted [Resolves r503; Resolves r503] (Resolves r200))
    "/users/1" no_options 3 []
  = (Returned user1,
     attempts_trace dev_env "http://localhost:7071/api/users/1" (fetch_init no_options) 0 3)
  /\
  request dev_env (always (Resolves r503)) "/users/1" no_options 3 []
  = (Thrown (Custom (ApiError 503 "Service Unavailable" "Service temporarily unavailable"
                       "/users/1")),
     attempts_trace dev_env "http://localhost:7071/api/users/1" (fetch_init no_options) 0 4).
Proof.
  split.
  - refine (proj1 (request_bounded_retry dev_env
                     (scripted [Resolves r503; Resolves r503] (Resolves r200))
                     "/users/1" no_options 3 [] 3 r200 _ _ _ _) user1 _ _).
    + lia.
    + lia.
    + intros i Hi. exists r503.
      destruct i as [|[|i]]; [repeat split | repeat split | simpl in Hi; lia].
    + reflexivity.
    + reflexivity.
    + reflexivity.
  - refine (proj1 (proj2 (request_bounded_retry dev_env (always (Resolves r503))
                            "/users/1" no_options 3 [] 4 r503 _ _ _ _)) _ _ _).
    + lia.
    + lia.
    + intros i Hi. exists r503. repeat split.
    + reflexivity.
    + reflexivity.
    + reflexivity.
    + reflexivity.
Defined.

Lemma request_single_attempt_witness :
  exists e,
    request dev_env (always (Resolves r404)) "/series/user/user-1" no_options 3 []
    = (Thrown e, [Fetch "http://localhost:7071/api/series/user/user-1"
                    (fetch_init no_options)]).
Proof.
  refine (proj1 (proj2 (proj2 (request_single_attempt dev_env (always (Resolves r404))
                                 "/series/user/user-1" no_options 3 [] _))) r404 _ _ _).
  - lia.
  - reflexivity.
  - reflexivity.
  - reflexivity.
Defined.

Lemma request_failure_kinds_witness :
  failure_kind (Resolves r400_unconvertible)
    (new_Error "Unexpected error: Cannot convert object to primitive value").
Proof.
  refine (request_failure_kinds dev_env (always (Resolves r400_unconvertible))
            "/users" no_options 3 [] _
            [Fetch "http://localhost:7071/api/users" (fetch_init no_options)]
            _ _).
  - intros n url init message [H|(r & H & Hok & _)].
    + discriminate H.
    + injection H as <-. discriminate Hok.
  - reflexivity.
Defined.

Lemma validated_call_rejects_missing_input_witness :
  (exists m f,
     invoke dev_env (always (Resolves r200)) (GetUser "") []
     = (Thrown (Custom (ValidationError m f)), [])) /\
  (exists endpoint options,
     invoke dev_env (always (Resolves r200)) (GetFriends "")
     = request dev_env (always (Resolves r200)) endpoint options 3 /\
     exists res rest,
       invoke dev_env (always (Resolves r200)) (GetFriends "") []
       = (res, [] ++ Fetch (url_of dev_env endpoint) (fetch_init options) :: rest)).
Proof.
  split.
  - refine (proj1 (validated_call_rejects_missing_input dev_env (always (Resolves r200))
                     (GetUser "") []) _ _); reflexivity.
  - refine (proj2 (validated_call_rejects_missing_input dev_env (always (Resolves r200))
                     (GetFriends "") []) _); reflexivity.
Defined.

Lemma list_reads_404_witness :
  getUserSeries dev_env (always (Resolves r404)) "user-1" []
  = (Returned (VArr []),
     [Fetch "http://localhost:7071/api/series/user/user-1" (fetch_init no_options)]).
Proof.
  refine (proj1 (list_reads_404 dev_env (always (Resolves r404)) "user-1" [] _)
            r404 _ _ _).
  - discriminate.
  - reflexivity.
  - reflexivity.
  - reflexivity.
Defined.


(** *** Inputs on which the specification's sentences fail *)

(** C4: a successful response that declares JSON and whose body cannot be
    parsed. The [SyntaxError] of [response.json()] reaches the branch for
    unexpected errors and surfaces as a plain [Error], which is none of the
    three failure kinds. *)
Lemma request_throws_plain_error :
  exists e w',
    request dev_env (always (Resolves r200_unparsable)) "/users/1" no_options 3 []
    = (Thrown e, w') /\
    e = new_Error "Unexpected error: Unexpected end of JSON input" /\
    instanceof_NetworkError e = false /\ instanceof_ApiError e = false /\
    instanceof_ValidationError e = false.
Proof. do 2 eexists. repeat split. Qed.

(** C5: [getFriends('')] lacks its required identifier and still invokes the
    transport. *)
Lemma getFriends_empty_id_is_sent :
  required_input_missing (GetFriends "") = true /\
  exists c w',
    invoke dev_env (always (Resolves r200)) (GetFriends "") [] = (c, w') /\
    is_validation_failure c = false /\ fetch_count w' = 1%nat.
Proof. split; [reflexivity|]. do 2 eexists. repeat split. Qed.

(** C8: [updateFavoriteList] with an empty payload is sent. *)
Lemma updateFavoriteList_empty_payload_is_sent :
  exists c w',
    updateFavoriteList dev_env (always (Resolves r200)) "user-1" "list-1" [] [] = (c, w') /\
    is_validation_failure c = false /\ fetch_count w' = 1%nat.
Proof. do 2 eexists. repeat split. Qed.


(** * Further properties *)

(** ** The retry loop on every transient outcome *)

Section RetryLoop.

Variable env : Env.
Variable transport : Transport.
Variables (endpoint : string) (options : RequestInit) (retries : Z).

Local Abbreviation url := (url_of env endpoint).
Local Abbreviation init := (fetch_init options).
Local Abbreviation body := (request_attempt env transport endpoint options retries).
Local Abbreviation loop_from a := (for_attempts body (seqZ a (retries + 1 - a))).
Local Abbreviation outcome_at n := (transport n (url_of env endpoint) (fetch_init options)).
Local Abbreviation schedule := (attempts_trace env (url_of env endpoint) (fetch_init options)).

Lemma schedule_step a w k :
  (w ++ [Fetch url init; SetTimeout (timer_of env (2 ^ a * 1000))]) ++ schedule (a + 1) (S k)
  = w ++ schedule a (S (S k)).
Proof. rewrite timer_backoff, <- app_assoc. reflexivity. Qed.

(** [n] attempts with a transient outcome, while attempts remain. *)
Lemma loop_transient (n : nat) : forall a w,
  a + Z.of_nat n <= retries ->
  (forall i, (i < n)%nat -> transient (outcome_at (fetch_count w + i)%nat) = true) ->
  exists w1,
    loop_from a w = loop_from (a + Z.of_nat n) w1 /\
    fetch_count w1 = (fetch_count w + n)%nat /\
    (forall k, w1 ++ schedule (a + Z.of_nat n) (S k) = w ++ schedule a (S (n + k))).
Proof.
  induction n as [|n IH]; intros a w Ha Htr.
  - exists w. rewrite Z.add_0_r, Nat.add_0_r. auto.
  - pose proof (Htr 0%nat ltac:(lia)) as H0. rewrite Nat.add_0_r in H0.
    rewrite loop_unfold by lia.
    destruct (attempt_cases env transport endpoint options retries a w)
      as [(_ & _ & E)|(c0 & _ & _ & Hge & _)]; [|specialize (Hge H0); lia].
    rewrite E.
    set (w0 := w ++ [Fetch url init; SetTimeout (timer_of env (2 ^ a * 1000))]).
    assert (Hc : fetch_count w0 = S (fetch_count w)).
    { unfold w0. rewrite fetch_count_app. simpl. lia. }
    destruct (IH (a + 1) w0) as (w1 & Hloop & Hcount & Htrace).
    + lia.
    + intros i Hi. rewrite Hc.
      replace (S (fetch_count w) + i)%nat with (fetch_count w + S i)%nat by lia.
      apply Htr. lia.
    + exists w1.
      replace (a + Z.of_nat (S n)) with (a + 1 + Z.of_nat n) by lia.
      split; [exact Hloop|]. split; [lia|].
      intros k. rewrite Htrace. apply schedule_step.
Qed.

(** Every run of the loop: some attempts with a transient outcome, then one
    attempt that ends it. *)
Lemma loop_run (n : nat) : forall a w c w',
  retries - a = Z.of_nat n ->
  loop_from a w = (c, w') ->
  exists (m : nat) w1 c0,
    a + Z.of_nat m <= retries /\
    (forall i, (i < m)%nat -> transient (outcome_at (fetch_count w + i)%nat) = true) /\
    fetch_count w1 = (fetch_count w + m)%nat /\
    (forall k, w1 ++ schedule (a + Z.of_nat m) (S k) = w ++ schedule a (S (m + k))) /\
    body (a + Z.of_nat m) w1 = (c0, w1 ++ [Fetch url init]) /\
    c0 <> Returned Continue /\
    (transient (outcome_at (fetch_count w1)) = true -> retries <= a + Z.of_nat m) /\
    (forall e, c0 = Thrown e -> attempt_failure (outcome_at (fetch_count w1)) e) /\
    w' = w1 ++ [Fetch url init] /\
    c = match c0 with
        | Returned (Return v) => Returned v
        | Returned Continue => Returned VUndefined
        | Thrown e => Thrown e
        end.
Proof.
  induction n as [|n IH]; intros a w c w' Hn; rewrite loop_unfold by lia;
    destruct (attempt_cases env transport endpoint options retries a w)
      as [(Ht & Hlt & E)|(c0 & E & Hc0 & Hge & Hkind)]; rewrite E; try lia.
  - intros Hrun. exists 0%nat, w, c0. rewrite Z.add_0_r.
    repeat split; auto; try (intros; lia).
    + destruct c0 as [[|v]|e]; [contradiction| |]; injection Hrun as _ <-; reflexivity.
    + destruct c0 as [[|v]|e]; [contradiction| |]; injection Hrun as <- _; reflexivity.
  - intros Hrun.
    set (w0 := w ++ [Fetch url init; SetTimeout (timer_of env (2 ^ a * 1000))]) in *.
    assert (Hc : fetch_count w0 = S (fetch_count w)).
    { unfold w0. rewrite fetch_count_app. simpl. lia. }
    destruct (IH (a + 1) w0 c w' ltac:(lia) Hrun)
      as (m & w1 & c1 & Hm & Htr & Hcount & Htrace & Hb & Hc1 & Hge1 & Hk1 & Hw' & Hres).
    exists (S m), w1, c1.
    replace (a + Z.of_nat (S m)) with (a + 1 + Z.of_nat m) by lia.
    repeat split; auto; try lia.
    + intros i Hi. destruct i as [|i]; [rewrite Nat.add_0_r; exact Ht|].
      replace (fetch_count w + S i)%nat with (fetch_count w0 + i)%nat by lia.
      apply Htr. lia.
    + intros k. rewrite Htrace. apply schedule_step.
  - intros Hrun. exists 0%nat, w, c0. rewrite Z.add_0_r.
    repeat split; auto; try (intros; lia).
    + destruct c0 as [[|v]|e]; [contradiction| |]; injection Hrun as _ <-; reflexivity.
    + destruct c0 as [[|v]|e]; [contradiction| |]; injection Hrun as <- _; reflexivity.
Qed.

(** X1. Recovery from any mix of transient outcomes: when the first [k - 1]
    attempts end with a retried status or a classified transport failure and
    attempt [k] (at most [retries + 1]) succeeds, the operation returns the
    value of that response after exactly [k] transport invocations separated
    by the waits of attempts [0 .. k - 2]. *)
Theorem request_recovers_from_transient (w : World) (k : nat) (r : Response) (v : jsval) :
  (1 <= k)%nat -> Z.of_nat k <= retries + 1 ->
  (forall i, (i < k - 1)%nat -> transient (outcome_at (fetch_count w + i)%nat) = true) ->
  outcome_at (fetch_count w + (k - 1))%nat = Resolves r ->
  ok r = true -> success_value r = Some v ->
  request env transport endpoint options retries w = (Returned v, w ++ schedule 0 k).
Proof.
  intros Hk1 Hk Htr Hlast Hok Hv.
  destruct k as [|n]; [lia|]. replace (S n - 1)%nat with n in * by lia.
  destruct (loop_transient n 0 w ltac:(lia) Htr) as (w1 & Hloop & Hcount & Htrace).
  specialize (Htrace 0%nat). rewrite Nat.add_0_r in Htrace.
  rewrite <- Hcount in Hlast.
  rewrite request_unfold, Hloop, loop_unfold by lia.
  rewrite (attempt_success env transport endpoint options retries _ w1 r v Hlast Hok Hv).
  rewrite <- Htrace. reflexivity.
Qed.

Lemma request_exhausted (w : World) :
  0 <= retries ->
  (forall i, (i < Z.to_nat (retries + 1))%nat ->
     transient (outcome_at (fetch_count w + i)%nat) = true) ->
  (forall x,
     rejected_with (outcome_at (fetch_count w + Z.to_nat retries)%nat) x ->
     request env transport endpoint options retries w =
     (Thrown (network_failure endpoint), w ++ schedule 0 (Z.to_nat (retries + 1)))) /\
  (forall r,
     outcome_at (fetch_count w + Z.to_nat retries)%nat = Resolves r -> ok r = false ->
     request env transport endpoint options retries w =
     (Thrown (exhausted_failure endpoint r), w ++ schedule 0 (Z.to_nat (retries + 1)))).
Proof.
  intros Hr Htr.
  replace (Z.to_nat (retries + 1)) with (S (Z.to_nat retries)) in * by lia.
  destruct (loop_transient (Z.to_nat retries) 0 w ltac:(lia)
              ltac:(intros i Hi; apply Htr; lia)) as (w1 & Hloop & Hcount & Htrace).
  specialize (Htrace 0%nat). rewrite Nat.add_0_r in Htrace.
  pose proof (Htr (Z.to_nat retries) ltac:(lia)) as Hlast.
  rewrite <- Hcount in *.
  rewrite request_unfold, Hloop, loop_unfold by lia.
  split.
  - intros x Hx.
    rewrite (attempt_rejected env transport endpoint options retries _ w1 x Hx).
    assert (Hf : fetch_type_error x = true).
    { destruct Hx as [E|(r0 & E & Hok & Hd & Hj)]; rewrite E in Hlast; simpl in Hlast.
      - exact Hlast.
      - rewrite Hok, Hd, Hj in Hlast. exact Hlast. }
    rewrite catch_classified by assumption.
    rewrite retry_or_throw_exhausted by lia.
    rewrite <- Htrace. reflexivity.
  - intros r Ho Hok.
    assert (Hst : retried_status (status r) = true).
    { rewrite Ho in Hlast. simpl in Hlast. rewrite Hok in Hlast. exact Hlast. }
    rewrite (attempt_exhausted_status env transport endpoint options retries _ w1 r
               Ho Hok Hst) by lia.
    rewrite <- Htrace. reflexivity.
Qed.

(** X2. Giving up: when all [retries + 1] attempts end with a transient
    outcome, the operation throws after exactly [retries + 1] transport
    invocations; the failure is decided by the last outcome alone: a
    [NetworkError] with the fixed message when the transport rejected, the
    [ApiError] of the status when it answered. *)
Theorem request_gives_up_after_all_attempts (w : World) :
  0 <= retries ->
  (forall i, (i < Z.to_nat (retries + 1))%nat ->
     transient (outcome_at (fetch_count w + i)%nat) = true) ->
  (forall x,
     rejected_with (outcome_at (fetch_count w + Z.to_nat retries)%nat) x ->
     request env transport endpoint options retries w =
     (Thrown (network_failure endpoint), w ++ schedule 0 (Z.to_nat (retries + 1)))) /\
  (forall r,
     outcome_at (fetch_count w + Z.to_nat retries)%nat = Resolves r -> ok r = false ->
     request env transport endpoint options retries w =
     (Thrown (exhausted_failure endpoint r), w ++ schedule 0 (Z.to_nat (retries + 1)))).
Proof. apply request_exhausted. Qed.

Lemma request_run w c w' :
  0 <= retries ->
  request env transport endpoint options retries w = (c, w') ->
  exists (m : nat) w1 c0,
    Z.of_nat m <= retries /\
    (forall i, (i < m)%nat -> transient (outcome_at (fetch_count w + i)%nat) = true) /\
    fetch_count w1 = (fetch_count w + m)%nat /\
    w' = w ++ schedule 0 (S m) /\
    w' = w1 ++ [Fetch url init] /\
    c0 <> Returned Continue /\
    (transient (outcome_at (fetch_count w1)) = true -> retries <= Z.of_nat m) /\
    (forall e, c0 = Thrown e -> attempt_failure (outcome_at (fetch_count w1)) e) /\
    c = match c0 with
        | Returned (Return v) => Returned v
        | Returned Continue => Returned VUndefined
        | Thrown e => Thrown e
        end.
Proof.
  intros Hr Hreq. rewrite request_unfold in Hreq.
  destruct (loop_run (Z.to_nat retries) 0 w c w' ltac:(lia) Hreq)
    as (m & w1 & c0 & Hm & Htr & Hcount & Htrace & Hb & Hc0 & Hge & Hk & Hw' & Hc).
  exists m, w1, c0. specialize (Htrace 0%nat). rewrite Nat.add_0_r in Htrace.
  repeat split; auto; try lia.
  rewrite <- Htrace. exact Hw'.
Qed.

Lemma request_shape (w : World) (c : Completion jsval) (w' : World) :
  0 <= retries ->
  request env transport endpoint options retries w = (c, w') ->
  exists k : nat,
    (1 <= k)%nat /\ Z.of_nat k <= retries + 1 /\
    w' = w ++ schedule 0 k /\
    fetch_count w' = (fetch_count w + k)%nat /\
    timers w' = timers w ++ map (backoff_ms env) (seqZ 0 (Z.of_nat k - 1)).
Proof.
  intros Hr Hreq.
  destruct (request_run w c w' Hr Hreq) as (m & w1 & c0 & Hm & _ & _ & Hw' & _).
  exists (S m). split; [lia|]. split; [lia|]. split; [exact Hw'|].
  rewrite Hw', fetch_count_app, timers_app, fetch_count_attempts_trace.
  rewrite timers_attempts_trace. split; [reflexivity|].
  do 3 f_equal. lia.
Qed.

(** X3. Bounded work: with a ceiling that is not negative, every run of the
    operation, whatever the transport does and however the run ends, invokes
    the transport [k] times for some [k] between 1 and [retries + 1], and
    what it emits is exactly those invocations, at one address and with one
    argument, separated by the waits of attempts [0 .. k - 2]. *)
Theorem request_trace_shape (w : World) (c : Completion jsval) (w' : World) :
  0 <= retries ->
  request env transport endpoint options retries w = (c, w') ->
  exists k : nat,
    (1 <= k)%nat /\ Z.of_nat k <= retries + 1 /\
    w' = w ++ schedule 0 k /\
    fetch_count w' = (fetch_count w + k)%nat /\
    timers w' = timers w ++ map (backoff_ms env) (seqZ 0 (Z.of_nat k - 1)).
Proof. apply request_shape. Qed.

Lemma sum_app (l1 l2 : list Z) :
  fold_right Z.add 0 (l1 ++ l2) = fold_right Z.add 0 l1 + fold_right Z.add 0 l2.
Proof. induction l1 as [|x l1 IH]; simpl; [reflexivity | rewrite IH; lia]. Qed.

Lemma backoff_scale i : 0 <= i -> backoff_ms env i = backoff_ms env 0 * 2 ^ i.
Proof.
  intros Hi. unfold backoff_ms. destruct (String.eqb (MODE env) "test"); simpl; lia.
Qed.

Lemma sum_backoff (n : nat) :
  fold_right Z.add 0 (map (backoff_ms env) (seqZ 0 (Z.of_nat n)))
  = backoff_ms env 0 * (2 ^ Z.of_nat n - 1).
Proof.
  induction n as [|n IH]; [simpl; lia|].
  rewrite seqZ_S, map_app, sum_app, IH. cbn [map fold_right].
  change (0 + Z.of_nat n) with (Z.of_nat n).
  rewrite (backoff_scale (Z.of_nat n)) by lia.
  replace (Z.of_nat (S n)) with (Z.of_nat n + 1) by lia.
  rewrite (Z.pow_add_r 2 (Z.of_nat n) 1) by lia. change (2 ^ 1) with 2. ring.
Qed.

(** X4. Bounded waiting: the waits of one run add up to
    [2^(k-1) - 1] seconds for its [k] invocations (a tenth under test), hence
    to at most [2^retries - 1] seconds: 7 seconds for the default ceiling. *)
Theorem request_total_wait (w : World) (c : Completion jsval) (w' : World) :
  0 <= retries ->
  request env transport endpoint options retries w = (c, w') ->
  total_wait w' =
  total_wait w + backoff_ms env 0 * (2 ^ (Z.of_nat (fetch_count w' - fetch_count w) - 1) - 1)
  /\ total_wait w <= total_wait w' <= total_wait w + (2 ^ retries - 1) * 1000.
Proof.
  intros Hr Hreq.
  destruct (request_shape w c w' Hr Hreq) as (k & Hk1 & Hk & _ & Hcount & Htimers).
  unfold total_wait. rewrite Htimers, sum_app.
  replace (Z.of_nat k - 1) with (Z.of_nat (k - 1)) by lia.
  rewrite sum_backoff, Hcount.
  replace (fetch_count w + k - fetch_count w)%nat with k by lia.
  replace (Z.of_nat k - 1) with (Z.of_nat (k - 1)) by lia.
  split; [reflexivity|].
  assert (H0 : 0 < backoff_ms env 0 <= 1000).
  { unfold backoff_ms. destruct (String.eqb (MODE env) "test"); simpl; lia. }
  assert (H1 : 1 <= 2 ^ Z.of_nat (k - 1) <= 2 ^ retries).
  { split; [|apply Z.pow_le_mono_r; lia].
    pose proof (Z.pow_pos_nonneg 2 (Z.of_nat (k - 1)) ltac:(lia) ltac:(lia)). lia. }
  nia.
Qed.

Lemma rejected_transient o x : rejected_with o x -> transient o = fetch_type_error x.
Proof.
  intros [->|(r & -> & Hok & Hd & Hj)]; simpl; [reflexivity|].
  rewrite Hok, Hd, Hj. reflexivity.
Qed.

Lemma body_not_retried st : uses_body_message st = true -> retried_status st = false.
Proof.
  intros Hb. destruct (retried_status st) eqn:Hst; [|reflexivity].
  rewrite (retried_not_body _ Hst) in Hb. discriminate.
Qed.

Lemma failure_reports_transient o e :
  attempt_failure o e -> reports_transient e = transient o.
Proof.
  unfold attempt_failure.
  destruct e as [[st text m ep|m ep|m f]|[m|n m|v]]; simpl; try contradiction.
  - intros (r & -> & Hok & <- & _). simpl. rewrite Hok. reflexivity.
  - intros (x & Hx & Hf). rewrite (rejected_transient o x Hx). auto.
  - intros (_ & r & -> & Hok & Hst & _). simpl. rewrite Hok, Hst. reflexivity.
  - intros (_ & [(x & Hx & Hf & _)|(r & -> & Hok & Hb & _)]).
    + rewrite (rejected_transient o x Hx). apply negb_true_iff in Hf. auto.
    + simpl. rewrite Hok, (body_not_retried _ Hb). reflexivity.
Qed.

(** X5. The engine gives up on a transient condition only when no attempt
    is left: a run that throws a [NetworkError], or an [ApiError] with status
    429, 502, 503 or 504, has invoked the transport exactly [retries + 1]
    times. *)
Theorem request_transient_failure_is_last_resort (w : World) (e : Value) (w' : World) :
  0 <= retries ->
  request env transport endpoint options retries w = (Thrown e, w') ->
  reports_transient e = true ->
  w' = w ++ schedule 0 (Z.to_nat (retries + 1)) /\
  fetch_count w' = (fetch_count w + Z.to_nat (retries + 1))%nat.
Proof.
  intros Hr Hreq He.
  destruct (request_run w _ w' Hr Hreq)
    as (m & w1 & c0 & Hm & _ & _ & Hw' & _ & _ & Hge & Hk & Hc).
  assert (Hc0 : c0 = Thrown e).
  { destruct c0 as [[|v]|e0]; try discriminate. congruence. }
  rewrite (failure_reports_transient _ e (Hk e Hc0)) in He.
  specialize (Hge He).
  replace (Z.to_nat (retries + 1)) with (S m) by lia.
  split; [exact Hw'|]. rewrite Hw', fetch_count_app, fetch_count_attempts_trace.
  reflexivity.
Qed.

(** X6. What [isRetryableError] says of the failures of the engine: a
    failure thrown by the operation is classified retryable exactly when its
    last transport outcome was transient, or was a response with status 408,
    a status the engine itself does not retry, whose message could be
    converted to a string (when it cannot, the failure is a plain [Error],
    which is not retryable). *)
Theorem request_failure_retryable (w : World) (e : Value) (w' : World) :
  request env transport endpoint options retries w = (Thrown e, w') ->
  (isRetryableError e = true <->
   transient (outcome_at (Nat.pred (fetch_count w'))) = true \/
   exists r,
     outcome_at (Nat.pred (fetch_count w')) = Resolves r /\
     ok r = false /\ status r = 408 /\
     Js.convertible (body_message r) = true).
Proof.
  intros Hreq.
  pose proof (request_attempt_failure env transport endpoint options retries w e w' Hreq)
    as Hkind.
  pose proof (failure_reports_transient _ e Hkind) as Ht. rewrite <- Ht.
  set (o := outcome_at (Nat.pred (fetch_count w'))) in *. clearbody o.
  clear Hreq Ht. unfold attempt_failure in Hkind.
  destruct e as [[st text m ep|m ep|m f]|[m|n m|v]]; simpl in *; try contradiction.
  - destruct Hkind as (r & -> & Hok & <- & _ & Hbody).
    unfold reports_transient, Js.array_includes, retried_status. simpl.
    rewrite !orb_true_iff, !Z.eqb_eq. split.
    + intros [H|[H|[H|[H|[H|H]]]]]; [| tauto.. | discriminate].
      right. exists r. repeat split; auto.
      apply Hbody. rewrite H. reflexivity.
    + intros [[[[H|H]|H]|H]|(r0 & [= <-] & _ & H & _)]; tauto.
  - tauto.
  - destruct Hkind as (_ & r & -> & Hok & Hst & _). split; [discriminate|].
    intros [H|(r0 & [= <-] & _ & H & _)]; [discriminate | lia].
  - destruct Hkind as (_ & [(x & Hx & Hf & _)|(r & -> & Hok & Hb & Hnone & _)]);
      (split; [discriminate|]).
    + intros [H|(r0 & -> & Hok & _)]; [discriminate|].
      destruct Hx as [H|(r1 & [= <-] & Hok1 & _)]; congruence.
    + intros [H|(r0 & [= <-] & _ & _ & Hsome)]; [discriminate | congruence].
Qed.

(** A negative ceiling: the loop body never runs, the transport is not
    invoked, and the operation returns [undefined]. *)
Lemma request_negative_ceiling (w : World) :
  retries < 0 ->
  request env transport endpoint options retries w = (Returned VUndefined, w).
Proof. intros Hr. unfold request. rewrite seqZ_nil by lia. reflexivity. Qed.


End RetryLoop.

(** ** The facade, method by method *)

Section FacadeMore.

Variable env : Env.
Variable transport : Transport.

Lemma talks_throw e : talks (throw e).
Proof.
  intros w c w' [= _ <-]. exists [], ""%string, (fetch_init no_options).
  rewrite app_nil_r. repeat split. constructor.
Qed.

Lemma talks_request endpoint options :
  headers options = None -> talks (request env transport endpoint options 3).
Proof.
  intros Hh w c w' Hreq.
  apply request_trace in Hreq as (rest & -> & Hrest).
  exists rest, (url_of env endpoint), (fetch_init options).
  split; [reflexivity|]. split; [apply fetch_init_no_caller_headers, Hh|].
  eapply Forall_impl; [exact Hrest|]. intros [u i|ms]; simpl; auto.
Qed.

Lemma talks_try_catch (m : M jsval) (handler : Value -> M jsval) :
  talks m -> (forall e w, (handler e w).2 = w) -> talks (try_catch m handler).
Proof.
  intros Hm Hh w c w'. unfold try_catch.
  destruct (m w) as [[v|e] w1] eqn:E.
  - intros [= <- <-]. eapply Hm, E.
  - intros Hc. pose proof (Hh e w1) as H1. rewrite Hc in H1. simpl in H1. subst w'.
    eapply Hm, E.
Qed.

Lemma remap_status_world st message e w : (remap_status st message e w).2 = w.
Proof.
  unfold remap_status.
  destruct (instanceof_ApiError e && (error_status e =? st)); reflexivity.
Qed.

Lemma empty_on_404_world e w : (empty_on_404 e w).2 = w.
Proof.
  unfold empty_on_404.
  destruct (instanceof_ApiError e && (error_status e =? 404)); reflexivity.
Qed.

Lemma validateRequired_run data fields w :
  validateRequired data fields w = (Returned tt, w) \/
  exists e, validateRequired data fields w = (Thrown e, w).
Proof.
  induction fields as [|f rest IH]; simpl; [left; reflexivity|].
  destruct (Js.member_truthy data f); simpl; [exact IH|].
  right. eexists. reflexivity.
Qed.

Lemma talks_validated data fields (m : M jsval) :
  talks m -> talks (validateRequired data fields ;;; m).
Proof.
  intros Hm w c w'. unfold bind.
  destruct (validateRequired_run data fields w) as [->|(e & ->)].
  - apply Hm.
  - apply (talks_throw e).
Qed.

(** X8. Every facade call, whatever its arguments and whatever the transport
    does, emits only timers and invocations of the transport at a single
    address with a single argument, and that argument carries exactly the
    header [Content-Type: application/json]: no method passes headers of its
    own, so the default is never displaced. *)
Theorem facade_sends_json (call : FacadeCall) (w : World) (c : Completion jsval)
    (w' : World) :
  invoke env transport call w = (c, w') ->
  exists rest url init,
    w' = w ++ rest /\ headers init = json_headers /\
    Forall (only_fetches url init) rest.
Proof.
  revert w c w'.
  destruct call; simpl;
    unfold createUser, getUser, getUserByEmail, getUserByUsername, updateUser, deleteUser,
      createSeries, getSeries, getUserSeries, getRecommendations, updateSeries,
      deleteSeries, likeSeries, unlikeSeries, getFriends, addFriend, removeFriend,
      getFriendRequests, acceptFriendRequest, rejectFriendRequest, createFavoriteList,
      getFavoriteLists, getFavoriteList, updateFavoriteList, deleteFavoriteList,
      addSeriesToFavoriteList, removeSeriFromFavoriteList;
    repeat match goal with
           | |- context [if ?b then _ else _] => destruct b
           end;
    first [ apply talks_throw
          | apply talks_request; reflexivity
          | apply talks_validated;
            first [ apply talks_request; reflexivity
                  | apply talks_try_catch;
                    [apply talks_request; reflexivity | apply remap_status_world] ]
          | apply talks_try_catch;
            [ apply talks_request; reflexivity
            | first [apply remap_status_world | apply empty_on_404_world] ] ].
Qed.

Lemma validateRequired_passes (data : list (string * jsval)) (fields : list string)
    (w : World) :
  Forall (fun f => Js.member_truthy data f = true) fields ->
  validateRequired data fields w = (Returned tt, w).
Proof. induction 1 as [|f rest Hf _ IH]; simpl; [reflexivity|]. rewrite Hf. exact IH. Qed.

(** X9. [validateRequired] passes exactly when [data[field]] is truthy for
    every required field, and otherwise reports the first field, in the order
    of the list, for which it is not: a [ValidationError] naming that field,
    with the message "field is required". It never touches the trace. What
    [data[field]] reads is the member of the object's own for a name that
    plain objects do not inherit, as are the six names the facade requires;
    for an inherited name ([constructor], [toString], ...) that the object
    does not define itself it is the inherited member, which is truthy. *)
Theorem validateRequired_first_missing (data : list (string * jsval))
    (fields : list string) (w : World) :
  (Forall (fun f => Js.member_truthy data f = true) fields ->
   validateRequired data fields w = (Returned tt, w)) /\
  (forall before field after,
     fields = before ++ field :: after ->
     Forall (fun f => Js.member_truthy data f = true) before ->
     Js.member_truthy data field = false ->
     validateRequired data fields w =
     (Thrown (Custom (ValidationError (field ++ " is required")%string (Some field))), w)) /\
  (forall field,
     Js.inherited field = false ->
     Js.member_truthy data field = Js.truthy (Js.lookup_prop data field)) /\
  (forall field,
     Js.inherited field = true -> Js.has_own data field = false ->
     Js.member_truthy data field = true) /\
  Forall (fun field => Js.inherited field = false)
    ["username"; "email"; "displayName"; "title"; "userId"; "genre"]%string.
Proof.
  split; [|split; [|split; [|split]]].
  - apply validateRequired_passes.
  - intros before field after -> Hbefore Hfield.
    induction Hbefore as [|f rest Hf _ IH]; simpl.
    + rewrite Hfield. reflexivity.
    + rewrite Hf. exact IH.
  - intros field. apply member_truthy_own.
  - intros field Hi Ho. unfold Js.member_truthy. rewrite Ho. exact Hi.
  - repeat constructor.
Qed.

Lemma remaps_try_catch (endpoint : string) (options : RequestInit) (st : Z)
    (message : string) (w : World) :
  remaps env transport
    (try_catch (request env transport endpoint options 3) (remap_status st message))
    endpoint options st message w.
Proof.
  unfold remaps, try_catch. repeat split.
  - intros text m ep w' ->. unfold remap_status. simpl. rewrite Z.eqb_refl. reflexivity.
  - intros e w' -> He. unfold remap_status.
    destruct e as [[st' text m ep| |]|]; try reflexivity.
    simpl. destruct (Z.eqb_spec st' st) as [->|]; [|reflexivity].
    exfalso. eapply He. reflexivity.
  - intros v w' ->. reflexivity.
Qed.

(** X10. The three lookups of a user, called with a non-empty key, turn the
    [ApiError] of a 404 into a [ValidationError] with a message of their own
    ("User not found", "User with this email not found", "User with this
    username not found"), rethrow every other failure of the engine and
    return its value unchanged; the e-mail address and the user name are
    percent-encoded in the address. A 404 answer to the first attempt ends
    each of them after that single invocation. *)
Theorem user_lookups_remap_404 (key : string) (w : World) :
  key <> ""%string ->
  remaps env transport (getUser env transport key)
    ("/users/" ++ key)%string no_options 404 "User not found" w /\
  remaps env transport (getUserByEmail env transport key)
    ("/users/email/" ++ Js.encodeURIComponent key)%string no_options 404
    "User with this email not found" w /\
  remaps env transport (getUserByUsername env transport key)
    ("/users/username/" ++ Js.encodeURIComponent key)%string no_options 404
    "User with this username not found" w /\
  (forall r,
     transport (fetch_count w) (url_of env ("/users/" ++ key)%string)
       (fetch_init no_options) = Resolves r ->
     ok r = false -> status r = 404 ->
     getUser env transport key w =
     (Thrown (validation_error "User not found"),
      w ++ [Fetch (url_of env ("/users/" ++ key)%string) (fetch_init no_options)])).
Proof.
  intros Hk. pose proof (not_blank key Hk) as Hb.
  unfold getUser, getUserByEmail, getUserByUsername. rewrite Hb.
  split; [apply remaps_try_catch|]. split; [apply remaps_try_catch|].
  split; [apply remaps_try_catch|].
  intros r Ho Hok Hst.
  pose proof (attempt_404 env transport _ no_options 3 0 w r Ho Hok Hst) as Hb0.
  apply request_first_attempt in Hb0; [|lia|discriminate].
  unfold try_catch. rewrite Hb0. reflexivity.
Qed.

(** X11. [createUser] with its three required fields present turns the
    [ApiError] of a 409 into the [ValidationError] "Username or email already
    exists", whatever message the server sent, rethrows every other failure
    and returns the created user unchanged. A 409 answer to the first attempt
    ends the call after that single invocation: with that [ValidationError]
    when the message the body offers can be converted to a string, and with
    the engine's plain [Error] for the failed conversion, rethrown as it is,
    when it cannot. *)
Theorem createUser_conflict (userData : list (string * jsval)) (w : World) :
  Forall (fun f => Js.truthy (Js.lookup_prop userData f) = true)
    ["username"; "email"; "displayName"]%string ->
  remaps env transport (createUser env transport userData)
    "/users" (with_body "POST" userData) 409 "Username or email already exists" w /\
  (forall r,
     transport (fetch_count w) (url_of env "/users")
       (fetch_init (with_body "POST" userData)) = Resolves r ->
     ok r = false -> status r = 409 ->
     Js.convertible (body_message r) = true ->
     createUser env transport userData w =
     (Thrown (validation_error "Username or email already exists"),
      w ++ [Fetch (url_of env "/users") (fetch_init (with_body "POST" userData))])) /\
  (forall r,
     transport (fetch_count w) (url_of env "/users")
       (fetch_init (with_body "POST" userData)) = Resolves r ->
     ok r = false -> status r = 409 ->
     Js.convertible (body_message r) = false ->
     createUser env transport userData w =
     (Thrown (new_Error ("Unexpected error: " ++ Js.cannot_convert)%string),
      w ++ [Fetch (url_of env "/users") (fetch_init (with_body "POST" userData))])).
Proof.
  intros Hfields.
  assert (Hc : createUser env transport userData w =
               try_catch (request env transport "/users" (with_body "POST" userData) 3)
                 (remap_status 409 "Username or email already exists") w).
  { unfold createUser, bind.
    rewrite (validateRequired_passes userData _ w); [reflexivity|].
    eapply Forall_impl; [exact Hfields|]. clear.
    intros f Hf. simpl in Hf. unfold Js.member_truthy.
    destruct (Js.has_own userData f) eqn:Ho; [exact Hf|].
    rewrite (lookup_prop_absent _ _ Ho) in Hf. discriminate. }
  assert (Hb : forall r,
             transport (fetch_count w) (url_of env "/users")
               (fetch_init (with_body "POST" userData)) = Resolves r ->
             ok r = false -> status r = 409 ->
             request env transport "/users" (with_body "POST" userData) 3 w =
             (match Js.ToString (body_message r) with
              | Some message => Thrown (failure_with_message "/users" r message)
              | None => Thrown (new_Error ("Unexpected error: " ++ Js.cannot_convert)%string)
              end,
              w ++ [Fetch (url_of env "/users") (fetch_init (with_body "POST" userData))])).
  { intros r Ho Hok Hst.
    pose proof (attempt_body_status env transport "/users" (with_body "POST" userData)
                  3 0 w r Ho Hok) as Hb.
    rewrite Hst in Hb. specialize (Hb eq_refl).
    apply request_first_attempt in Hb; [|lia|].
    - rewrite Hb. destruct (Js.ToString (body_message r)); reflexivity.
    - destruct (Js.ToString (body_message r)); discriminate. }
  split; [|split].
  - pose proof (remaps_try_catch "/users" (with_body "POST" userData) 409
                  "Username or email already exists" w) as H.
    unfold remaps in *. rewrite Hc. exact H.
  - intros r Ho Hok Hst Hm. rewrite Hc.
    unfold try_catch. rewrite (Hb r Ho Hok Hst).
    unfold Js.convertible in Hm.
    destruct (Js.ToString (body_message r)); [|discriminate].
    unfold failure_with_message. rewrite Hst. reflexivity.
  - intros r Ho Hok Hst Hm. rewrite Hc.
    unfold try_catch. rewrite (Hb r Ho Hok Hst).
    unfold Js.convertible in Hm.
    destruct (Js.ToString (body_message r)); [discriminate|]. reflexivity.
Qed.

(** X12. [getRecommendations] called without a user id, or with the empty
    string, reads the address of all recommendations; there too the
    [ApiError] of a 404 becomes the empty list, every other failure is
    rethrown and a value is returned unchanged. *)
Theorem getRecommendations_without_user (userId : option string) (w : World) :
  userId = None \/ userId = Some ""%string ->
  (forall text m ep w',
     request env transport "/series/recommendations" no_options 3 w
     = (Thrown (Custom (ApiError 404 text m ep)), w') ->
     getRecommendations env transport userId w = (Returned (VArr []), w')) /\
  (forall e w',
     request env transport "/series/recommendations" no_options 3 w = (Thrown e, w') ->
     (forall text m ep, e <> Custom (ApiError 404 text m ep)) ->
     getRecommendations env transport userId w = (Thrown e, w')) /\
  (forall v w',
     request env transport "/series/recommendations" no_options 3 w = (Returned v, w') ->
     getRecommendations env transport userId w = (Returned v, w')).
Proof.
  intros [->| ->]; unfold getRecommendations, try_catch; simpl; repeat split.
  all: try (intros text m ep w' ->; reflexivity).
  all: try (intros e w' -> He; apply empty_on_404_other, He).
  all: intros v w' ->; reflexivity.
Qed.

End FacadeMore.

(** ** Percent-encoding of path segments *)

Lemma hex_digit_code (n : N) :
  (n < 16)%N -> N_of_ascii (Js.hex_digit n) = (if (n <? 10)%N then 48 + n else 55 + n)%N.
Proof.
  intros Hn. unfold Js.hex_digit. apply N_ascii_embedding.
  destruct (N.ltb_spec n 10); lia.
Qed.

Lemma hex_digit_unreserved (n : N) : (n < 16)%N -> Js.uri_unreserved (Js.hex_digit n) = true.
Proof.
  intros Hn. unfold Js.uri_unreserved. rewrite hex_digit_code by assumption.
  destruct (N.ltb_spec n 10) as [Hlt|Hge].
  - assert (Hr : ((48 <=? 48 + n) && (48 + n <=? 57))%N = true).
    { apply andb_true_intro. split; apply N.leb_le; lia. }
    rewrite Hr. rewrite ?orb_true_r. reflexivity.
  - assert (Hr : ((65 <=? 55 + n) && (55 + n <=? 90))%N = true).
    { apply andb_true_intro. split; apply N.leb_le; lia. }
    rewrite Hr. reflexivity.
Qed.

Lemma hex_digit_inj (n m : N) :
  (n < 16)%N -> (m < 16)%N -> Js.hex_digit n = Js.hex_digit m -> n = m.
Proof.
  intros Hn Hm H. apply (f_equal N_of_ascii) in H.
  rewrite !hex_digit_code in H by assumption.
  destruct (N.ltb_spec n 10), (N.ltb_spec m 10); lia.
Qed.

Lemma ascii_nibbles (c : ascii) :
  (N_of_ascii c / 16 < 16)%N /\ (N_of_ascii c mod 16 < 16)%N.
Proof.
  pose proof (N_ascii_bounded c). split.
  - apply N.Div0.div_lt_upper_bound. lia.
  - apply N.mod_lt. discriminate.
Qed.

Lemma append_inj_l (p a b : string) : (p ++ a)%string = (p ++ b)%string -> a = b.
Proof. induction p as [|c p IH]; simpl; [auto|]. intros [= H]. apply IH, H. Qed.

Lemma encode_alphabet (s : string) :
  string_forall (fun c => Js.uri_unreserved c || Ascii.eqb c "%") (Js.encodeURIComponent s)
  = true.
Proof.
  induction s as [|c s IH]; [reflexivity|]. simpl.
  destruct (Js.uri_unreserved c) eqn:Hc; simpl.
  - rewrite Hc. exact IH.
  - destruct (ascii_nibbles c) as [H1 H2].
    rewrite (hex_digit_unreserved _ H1), (hex_digit_unreserved _ H2). exact IH.
Qed.

Lemma encode_unreserved (s : string) :
  string_forall Js.uri_unreserved s = true -> Js.encodeURIComponent s = s.
Proof.
  induction s as [|c s IH]; [reflexivity|]. simpl.
  destruct (Js.uri_unreserved c); simpl; [|discriminate].
  intros H. rewrite (IH H). reflexivity.
Qed.

Lemma encode_inj (s : string) :
  forall s', Js.encodeURIComponent s = Js.encodeURIComponent s' -> s = s'.
Proof.
  induction s as [|c s IH]; intros [|c' s']; simpl.
  - reflexivity.
  - destruct (Js.uri_unreserved c'); discriminate.
  - destruct (Js.uri_unreserved c); discriminate.
  - destruct (Js.uri_unreserved c) eqn:Hc, (Js.uri_unreserved c') eqn:Hc'.
    + intros [= -> H]. rewrite (IH s' H). reflexivity.
    + intros [= -> _]. discriminate Hc.
    + intros [= <- _]. discriminate Hc'.
    + intros [= H1 H2 H].
      destruct (ascii_nibbles c) as [Ha Hb], (ascii_nibbles c') as [Ha' Hb'].
      apply hex_digit_inj in H1; [|assumption..].
      apply hex_digit_inj in H2; [|assumption..].
      assert (E : N_of_ascii c = N_of_ascii c').
      { rewrite (N.div_mod (N_of_ascii c) 16), (N.div_mod (N_of_ascii c') 16)
          by discriminate. rewrite H1, H2. reflexivity. }
      apply (f_equal ascii_of_N) in E. rewrite !ascii_N_embedding in E.
      rewrite E, (IH s' H). reflexivity.
Qed.

(** X13. The path segment of the lookups by e-mail address and by user name.
    [encodeURIComponent] leaves a string of unreserved characters as it is,
    produces only unreserved characters and [%] (so no [/], [?], [#] or space
    of the key reaches the address), and is injective: two different e-mail
    addresses are never looked up at the same address. *)
Theorem encodeURIComponent_safe (s : string) :
  string_forall (fun c => Js.uri_unreserved c || Ascii.eqb c "%") (Js.encodeURIComponent s)
  = true /\
  (string_forall Js.uri_unreserved s = true -> Js.encodeURIComponent s = s) /\
  (forall s', Js.encodeURIComponent s = Js.encodeURIComponent s' -> s = s') /\
  (forall env s',
     url_of env ("/users/email/" ++ Js.encodeURIComponent s)%string =
     url_of env ("/users/email/" ++ Js.encodeURIComponent s')%string -> s = s').
Proof.
  split; [apply encode_alphabet|]. split; [apply encode_unreserved|].
  split; [apply encode_inj|].
  intros env s' H. unfold url_of in H.
  apply append_inj_l in H. apply append_inj_l in H. apply encode_inj, H.
Qed.

(** ** Display messages *)

(** X14. What [getErrorMessage] shows for a failure of the engine: never the
    empty string for an [ApiError]; for the statuses 401, 403, 404, 429, 500,
    502, 503 and 504 a fixed sentence that does not depend on the message,
    status text or endpoint of the error; for any other status the message of
    the error when it has one; and for a [NetworkError] one fixed sentence,
    whatever its message. *)
Theorem getErrorMessage_copy :
  (forall st text m ep, getErrorMessage (Custom (ApiError st text m ep)) <> ""%string) /\
  (forall st text m ep text' m' ep',
     fixed_copy st = true ->
     getErrorMessage (Custom (ApiError st text m ep)) =
     getErrorMessage (Custom (ApiError st text' m' ep'))) /\
  (forall st text m ep,
     fixed_copy st = false -> m <> ""%string ->
     getErrorMessage (Custom (ApiError st text m ep)) = m) /\
  (forall m ep m' ep',
     getErrorMessage (Custom (NetworkError m ep)) =
     getErrorMessage (Custom (NetworkError m' ep'))).
Proof.
  split; [|split; [|split]].
  - intros st text m ep. simpl.
    repeat match goal with
           | |- context [if ?b then _ else _] => destruct b eqn:?
           end; try discriminate.
    apply String.eqb_neq. assumption.
  - intros st text m ep text' m' ep' H. simpl.
    unfold fixed_copy, Js.array_includes in H. simpl in H.
    rewrite !orb_true_iff in H.
    destruct H as [H|[H|[H|[H|[H|[H|[H|[H|H]]]]]]]]; try discriminate;
      apply Z.eqb_eq in H; subst st; reflexivity.
  - intros st text m ep H Hm. simpl.
    unfold fixed_copy, Js.array_includes in H. simpl in H.
    rewrite !orb_false_iff in H.
    destruct H as (H1 & H2 & H3 & H4 & H5 & H6 & H7 & H8 & _).
    rewrite H1, H2, H3, H4, H5, H6, H7, H8. simpl.
    destruct (String.eqb_spec m ""); [contradiction | reflexivity].
  - reflexivity.
Qed.

(** ** The adapter over the engine *)

(** X15. A success callback that throws turns a successful call into a
    failure of [execute]: the value stays in [data], the message of what the
    callback threw goes to [error], the error callback is invoked with it, and
    [execute] throws (what the error callback threw, if it threw too). *)
Theorem execute_success_callback_throws (options : UseApiOptions) (apiCall : M jsval)
    (st : CallState) (w : World) (v : jsval) (w' : World) (thrown : Value) :
  apiCall w = (Returned v, w') ->
  call_if_present (onSuccess options) v = Some thrown ->
  UseApi.execute options apiCall st w =
  (match call_if_present (onError options) (getErrorMessage thrown) with
   | Some thrown' => Thrown thrown'
   | None => Thrown thrown
   end,
   {| loading := false; error := Some (getErrorMessage thrown); data := v |}, w').
Proof.
  intros Hcall Hcb. unfold UseApi.execute, UseApi.execute_catch. rewrite Hcall, Hcb.
  destruct (call_if_present (onError options) (getErrorMessage thrown)); reflexivity.
Qed.

Section AdapterOverEngine.

Variable env : Env.
Variable transport : Transport.
Variables (endpoint : string) (options : RequestInit).

Local Abbreviation outcome_at n := (transport n (url_of env endpoint) (fetch_init options)).
Local Abbreviation schedule := (attempts_trace env (url_of env endpoint) (fetch_init options)).

(** X16. What the user sees after an outage. [execute] over a request of the
    engine (default ceiling) whose four attempts all end with a transient
    outcome sets [error], after exactly four transport invocations, to "Unable
    to connect to the server. ..." when the last attempt was rejected, and to
    the sentence of the status ("Too many requests. ..." for 429, "The service
    is temporarily unavailable. ..." otherwise) when it was answered; [data]
    keeps its value and loading ends false. *)
Theorem execute_reports_outage (callbacks : UseApiOptions) (st : CallState) (w : World) :
  (forall i, (i < 4)%nat -> transient (outcome_at (fetch_count w + i)%nat) = true) ->
  (forall x,
     rejected_with (outcome_at (fetch_count w + 3)%nat) x ->
     exists c,
       UseApi.execute callbacks (request env transport endpoint options 3) st w =
       (c, {| loading := false;
              error := Some "Unable to connect to the server. Please check your internet connection and try again."%string;
              data := data st |},
        w ++ schedule 0 4)) /\
  (forall r,
     outcome_at (fetch_count w + 3)%nat = Resolves r -> ok r = false ->
     exists c,
       UseApi.execute callbacks (request env transport endpoint options 3) st w =
       (c, {| loading := false;
              error := Some (outage_copy (status r));
              data := data st |},
        w ++ schedule 0 4)).
Proof.
  intros Htr.
  destruct (request_exhausted env transport endpoint options 3 w ltac:(lia) Htr)
    as [Hrej Hst].
  split.
  - intros x Hx. specialize (Hrej x Hx).
    unfold UseApi.execute, UseApi.execute_catch. rewrite Hrej. simpl.
    destruct (call_if_present (onError callbacks) _); eauto.
  - intros r Ho Hok. specialize (Hst r Ho Hok).
    pose proof (Htr 3%nat ltac:(lia)) as H3. rewrite Ho in H3. simpl in H3.
    rewrite Hok in H3.
    unfold UseApi.execute, UseApi.execute_catch. rewrite Hst.
    assert (Hm : getErrorMessage (exhausted_failure endpoint r) = outage_copy (status r)).
    { unfold retried_status in H3. rewrite !orb_true_iff, !Z.eqb_eq in H3.
      unfold exhausted_failure, outage_copy. simpl.
      destruct H3 as [[[->| ->]| ->]| ->]; reflexivity. }
    rewrite Hm.
    destruct (call_if_present (onError callbacks) _); eauto.
Qed.

(** X17. The query variant re-arms after an outage. [fetchData] over a
    request of the engine whose four attempts are all rejected by the
    transport rethrows the [NetworkError] and, when the error callback does
    not throw and the configured retry count is not negative, arms one more
    timer of [2 ^ retryCount] seconds for each [retryCount] below the ceiling
    (3 when the option is absent or zero); this timer is not shortened under
    test. *)
Theorem query_rearms_after_outage (query : UseQuery.QueryOptions) (retryCount : Z)
    (st : CallState) (w : World) (x : ForeignValue) :
  (forall i, (i < 4)%nat -> transient (outcome_at (fetch_count w + i)%nat) = true) ->
  rejected_with (outcome_at (fetch_count w + 3)%nat) x ->
  call_if_present (onError (UseQuery.api_options query))
    (getErrorMessage (network_failure endpoint)) = None ->
  0 <= retryCount ->
  (retryCount < UseQuery.maxRetries query ->
   UseQuery.fetchData query (request env transport endpoint options 3) retryCount st w =
   (Thrown (network_failure endpoint),
    {| loading := false; error := Some (getErrorMessage (network_failure endpoint));
       data := data st |},
    w ++ schedule 0 4 ++ [SetTimeout (2 ^ retryCount * 1000)])) /\
  (UseQuery.retryCount query = None \/ UseQuery.retryCount query = Some 0 ->
   UseQuery.maxRetries query = 3).
Proof.
  intros Htr Hx Hcb Hrc.
  destruct (request_exhausted env transport endpoint options 3 w ltac:(lia) Htr)
    as [Hrej _]. specialize (Hrej x Hx).
  split.
  - intros Hlt. unfold UseQuery.fetchData, UseApi.execute, UseApi.execute_catch.
    rewrite Hrej, Hcb. simpl.
    destruct (Z.ltb_spec retryCount (UseQuery.maxRetries query)); [|lia].
    rewrite <- app_assoc. reflexivity.
  - unfold UseQuery.maxRetries. intros [-> | ->]; reflexivity.
Qed.

End AdapterOverEngine.

(** ** The authentication provider *)

Section Auth.

Variable JSON_stringify_text : jsval -> string.
Variable JSON_parse : string -> Completion jsval.
Variable setItem_throws : string -> option Value.
Variable env : Env.
Variable transport : Transport.

Local Abbreviation login :=
  (AuthContext.login JSON_stringify_text setItem_throws env transport).
Local Abbreviation register :=
  (AuthContext.register JSON_stringify_text setItem_throws env transport).
Local Abbreviation initializeAuth := (AuthContext.initializeAuth JSON_parse).

(** X18. [login] hides every cause of failure: whatever goes wrong (an empty
    user name, a user that does not exist, a server that cannot be reached, a
    response without a body, a storage that refuses the write), the failure
    thrown is [Error('Login failed')], the stored session is as before and
    loading is false. The user is as before too, except when the lookup
    succeeded and the write to the storage threw: [setUser] has run by then,
    and the looked-up user stays in place although the login failed. With an
    empty user name the transport is not invoked. *)
Theorem login_failure_is_opaque (username password : string) (st : AuthContext.AuthState)
    (w : World) :
  (forall e st' w',
     login username password st w = (Thrown e, st', w') ->
     e = new_Error "Login failed" /\
     AuthContext.loading st' = false /\
     AuthContext.storage st' = AuthContext.storage st /\
     (AuthContext.user st' = AuthContext.user st \/
      exists userData error,
        getUserByUsername env transport username w = (Returned userData, w') /\
        Js.truthy userData = true /\
        setItem_throws (JSON_stringify_text userData) = Some error /\
        AuthContext.user st' = userData)) /\
  (forall userData w' error,
     getUserByUsername env transport username w = (Returned userData, w') ->
     Js.truthy userData = true ->
     setItem_throws (JSON_stringify_text userData) = Some error ->
     login username password st w =
     (Thrown (new_Error "Login failed"),
      {| AuthContext.user := userData; AuthContext.loading := false;
         AuthContext.storage := AuthContext.storage st |}, w')) /\
  (username = ""%string ->
   login username password st w =
   (Thrown (new_Error "Login failed"),
    {| AuthContext.user := AuthContext.user st; AuthContext.loading := false;
       AuthContext.storage := AuthContext.storage st |}, w)).
Proof.
  split; [|split].
  - intros e st' w'. unfold AuthContext.login, AuthContext.setItem.
    destruct (getUserByUsername env transport username w) as [[userData|e0] w1].
    + destruct (Js.truthy userData) eqn:Ht.
      * destruct (setItem_throws (JSON_stringify_text userData)) as [error|] eqn:Hs;
          [|discriminate].
        intros [= <- <- <-]. repeat split. right. exists userData, error. auto.
      * intros [= <- <- _]. auto.
    + intros [= <- <- _]. auto.
  - intros userData w' error Hl Ht Hs. unfold AuthContext.login, AuthContext.setItem.
    rewrite Hl, Ht, Hs. reflexivity.
  - intros ->. reflexivity.
Qed.

(** X19. [login] succeeds exactly when the lookup of the user name returns a
    truthy value and the storage accepts its JSON text: that value becomes the
    user, the text is stored, and loading is false; nothing but the lookup
    reaches the transport. *)
Theorem login_succeeds_on_lookup (username password : string) (st st' : AuthContext.AuthState)
    (w w' : World) :
  login username password st w = (Returned tt, st', w') <->
  exists userData,
    getUserByUsername env transport username w = (Returned userData, w') /\
    Js.truthy userData = true /\
    setItem_throws (JSON_stringify_text userData) = None /\
    st' = {| AuthContext.user := userData; AuthContext.loading := false;
             AuthContext.storage := Some (JSON_stringify_text userData) |}.
Proof.
  unfold AuthContext.login, AuthContext.setItem.
  destruct (getUserByUsername env transport username w) as [[userData|e0] w1]; split.
  - destruct (Js.truthy userData) eqn:Ht; [|discriminate].
    destruct (setItem_throws (JSON_stringify_text userData)) eqn:Hs; [discriminate|].
    intros [= <- <-]. exists userData. auto.
  - intros (u & [= <- <-] & Ht & Hs & ->). rewrite Ht, Hs. reflexivity.
  - discriminate.
  - intros (u & H & _). discriminate.
Qed.

(** X20. [register] stops at a taken name: when the lookup of the user name
    returns a user it throws "Username already exists", and when that lookup
    finds nothing (or fails) but the lookup of the e-mail address returns a
    user it throws "Email already exists"; in both cases the trace is the one
    of the lookups made so far, so nothing is created, and the user and the
    stored session are as before. *)
Theorem register_refuses_taken_name (userData : AuthContext.RegisterData)
    (clock_id clock_created clock_updated : Z) (st : AuthContext.AuthState) (w : World) :
  (forall existing w1,
     getUserByUsername env transport (AuthContext.username userData) w
     = (Returned existing, w1) ->
     Js.truthy existing = true ->
     register userData clock_id clock_created clock_updated st w =
     (Thrown (new_Error "Username already exists"),
      {| AuthContext.user := AuthContext.user st; AuthContext.loading := false;
         AuthContext.storage := AuthContext.storage st |}, w1)) /\
  (forall c1 w1 existing w2,
     getUserByUsername env transport (AuthContext.username userData) w = (c1, w1) ->
     (forall v, c1 = Returned v -> Js.truthy v = false) ->
     getUserByEmail env transport (AuthContext.email userData) w1
     = (Returned existing, w2) ->
     Js.truthy existing = true ->
     register userData clock_id clock_created clock_updated st w =
     (Thrown (new_Error "Email already exists"),
      {| AuthContext.user := AuthContext.user st; AuthContext.loading := false;
         AuthContext.storage := AuthContext.storage st |}, w2)).
Proof.
  split.
  - intros existing w1 H1 Ht.
    unfold AuthContext.register, AuthContext.register_try, AuthContext.catch_null,
      bind, try_catch.
    rewrite H1, Ht. reflexivity.
  - intros c1 w1 existing w2 H1 Hc1 H2 Ht.
    unfold AuthContext.register, AuthContext.register_try, AuthContext.catch_null,
      bind, try_catch.
    rewrite H1. destruct c1 as [v|e]; [rewrite (Hc1 v eq_refl)|]; simpl;
      rewrite H2, Ht; reflexivity.
Qed.

(** X21. [register] treats a lookup that fails as a free name, whatever the
    failure: when both lookups throw (the "not found" of a 404, but also a
    server that cannot be reached), the user is created. When the storage
    accepts the write, the created user becomes the user and is stored. When
    the write throws, that error is rethrown with the created user already
    in place and the stored session as before. A failure of the creation is
    rethrown with the user and the stored session as before. Loading ends
    false in each case. *)
Theorem register_creates_when_lookups_fail (userData : AuthContext.RegisterData)
    (clock_id clock_created clock_updated : Z) (st : AuthContext.AuthState)
    (w : World) (e1 e2 : Value) (w1 w2 : World) :
  getUserByUsername env transport (AuthContext.username userData) w = (Thrown e1, w1) ->
  getUserByEmail env transport (AuthContext.email userData) w1 = (Thrown e2, w2) ->
  (forall newUser w3,
     createUser env transport
       (AuthContext.new_user_payload userData clock_id clock_created clock_updated) w2
     = (Returned newUser, w3) ->
     setItem_throws (JSON_stringify_text newUser) = None ->
     register userData clock_id clock_created clock_updated st w =
     (Returned tt,
      {| AuthContext.user := newUser; AuthContext.loading := false;
         AuthContext.storage := Some (JSON_stringify_text newUser) |}, w3)) /\
  (forall newUser w3 error,
     createUser env transport
       (AuthContext.new_user_payload userData clock_id clock_created clock_updated) w2
     = (Returned newUser, w3) ->
     setItem_throws (JSON_stringify_text newUser) = Some error ->
     register userData clock_id clock_created clock_updated st w =
     (Thrown error,
      {| AuthContext.user := newUser; AuthContext.loading := false;
         AuthContext.storage := AuthContext.storage st |}, w3)) /\
  (forall e w3,
     createUser env transport
       (AuthContext.new_user_payload userData clock_id clock_created clock_updated) w2
     = (Thrown e, w3) ->
     register userData clock_id clock_created clock_updated st w =
     (Thrown e,
      {| AuthContext.user := AuthContext.user st; AuthContext.loading := false;
         AuthContext.storage := AuthContext.storage st |}, w3)).
Proof.
  intros H1 H2.
  split; [|split].
  - intros newUser w3 H3 Hs.
    unfold AuthContext.register, AuthContext.register_try, AuthContext.catch_null,
      AuthContext.setItem, bind, try_catch.
    rewrite H1; simpl; rewrite H2; simpl; rewrite H3, Hs; reflexivity.
  - intros newUser w3 error H3 Hs.
    unfold AuthContext.register, AuthContext.register_try, AuthContext.catch_null,
      AuthContext.setItem, bind, try_catch.
    rewrite H1; simpl; rewrite H2; simpl; rewrite H3, Hs; reflexivity.
  - intros e w3 H3.
    unfold AuthContext.register, AuthContext.register_try, AuthContext.catch_null,
      bind, try_catch.
    rewrite H1; simpl; rewrite H2; simpl; rewrite H3; reflexivity.
Qed.

(** X22. The stored session. After a successful [login], a provider that
    mounts with the stored entry gets the same user back from
    [initializeAuth], provided [JSON.parse] inverts [JSON.stringify] on that
    user (and the text is not empty); after [logout] it starts without a
    user. An entry that [JSON.parse] rejects is removed and leaves the user
    unset. In every case loading ends false. *)
Theorem session_restored_on_mount (username password : string)
    (st st' : AuthContext.AuthState) (w w' : World) :
  login username password st w = (Returned tt, st', w') ->
  (JSON_parse (JSON_stringify_text (AuthContext.user st')) = Returned (AuthContext.user st') ->
   JSON_stringify_text (AuthContext.user st') <> ""%string ->
   initializeAuth {| AuthContext.user := VNull; AuthContext.loading := true;
                     AuthContext.storage := AuthContext.storage st' |}
   = {| AuthContext.user := AuthContext.user st'; AuthContext.loading := false;
        AuthContext.storage := AuthContext.storage st' |}) /\
  initializeAuth {| AuthContext.user := VNull; AuthContext.loading := true;
                    AuthContext.storage := AuthContext.storage (AuthContext.logout st') |}
  = {| AuthContext.user := VNull; AuthContext.loading := false;
       AuthContext.storage := None |} /\
  (forall text e,
     text <> ""%string -> JSON_parse text = Thrown e ->
     initializeAuth {| AuthContext.user := VNull; AuthContext.loading := true;
                       AuthContext.storage := Some text |}
     = {| AuthContext.user := VNull; AuthContext.loading := false;
          AuthContext.storage := None |}).
Proof.
  intros Hlogin.
  assert (Hs : AuthContext.storage st' =
               Some (JSON_stringify_text (AuthContext.user st'))).
  { unfold AuthContext.login, AuthContext.setItem in Hlogin.
    destruct (getUserByUsername env transport username w) as [[userData|e0] w1];
      [|discriminate].
    destruct (Js.truthy userData); [|discriminate].
    destruct (setItem_throws (JSON_stringify_text userData)); [discriminate|].
    injection Hlogin as <- _. reflexivity. }
  assert (Hne : forall t, t <> ""%string -> Js.truthy (VStr t) = true).
  { intros t Ht. simpl. destruct (String.eqb_spec t ""); [contradiction|reflexivity]. }
  split; [|split].
  - intros Hparse Htext. unfold AuthContext.initializeAuth.
    cbn [AuthContext.storage]. rewrite Hs, (Hne _ Htext), Hparse. reflexivity.
  - reflexivity.
  - intros text e Ht Hparse. unfold AuthContext.initializeAuth.
    cbn [AuthContext.storage]. rewrite (Hne _ Ht), Hparse. reflexivity.
Qed.

End Auth.

(** ** Instances of the further properties *)

Lemma request_recovers_from_transient_witness :
  request dev_env flaky "/users/1" no_options 3 []
  = (Returned user1,
     attempts_trace dev_env "http://localhost:7071/api/users/1" (fetch_init no_options) 0 3).
Proof.
  refine (request_recovers_from_transient dev_env flaky "/users/1" no_options 3 [] 3
            r200 user1 _ _ _ _ _ _).
  - lia.
  - lia.
  - intros i Hi. destruct i as [|[|i]]; [reflexivity | reflexivity | simpl in Hi; lia].
  - reflexivity.
  - reflexivity.
  - reflexivity.
Defined.

Lemma request_gives_up_after_all_attempts_witness :
  request dev_env offline "/users/1" no_options 3 []
  = (Thrown (network_failure "/users/1"),
     attempts_trace dev_env "http://localhost:7071/api/users/1" (fetch_init no_options) 0 4).
Proof.
  refine (proj1 (request_gives_up_after_all_attempts dev_env offline "/users/1"
                   no_options 3 [] _ _) (TypeError "Failed to fetch") _).
  - lia.
  - intros i _. reflexivity.
  - left. reflexivity.
Defined.

Lemma request_trace_shape_witness :
  exists k : nat,
    (1 <= k)%nat /\ Z.of_nat k <= 3 + 1 /\
    attempts_trace dev_env "http://localhost:7071/api/users/1" (fetch_init no_options) 0 4
    = [] ++ attempts_trace dev_env "http://localhost:7071/api/users/1"
              (fetch_init no_options) 0 k /\
    fetch_count
      (attempts_trace dev_env "http://localhost:7071/api/users/1" (fetch_init no_options) 0 4)
    = (fetch_count [] + k)%nat /\
    timers
      (attempts_trace dev_env "http://localhost:7071/api/users/1" (fetch_init no_options) 0 4)
    = timers [] ++ map (backoff_ms dev_env) (seqZ 0 (Z.of_nat k - 1)).
Proof.
  refine (request_trace_shape dev_env (always (Resolves r503)) "/users/1" no_options 3 []
            (Thrown (exhausted_failure "/users/1" r503)) _ _ _).
  - lia.
  - reflexivity.
Defined.

Lemma request_total_wait_witness :
  total_wait
    (attempts_trace dev_env "http://localhost:7071/api/users/1" (fetch_init no_options) 0 4)
  <= total_wait [] + (2 ^ 3 - 1) * 1000.
Proof.
  refine (proj2 (proj2 (request_total_wait dev_env (always (Resolves r503)) "/users/1"
                          no_options 3 [] (Thrown (exhausted_failure "/users/1" r503))
                          _ _ _))).
  - lia.
  - reflexivity.
Defined.

Lemma request_transient_failure_is_last_resort_witness :
  fetch_count
    (attempts_trace dev_env "http://localhost:7071/api/users/1" (fetch_init no_options) 0 4)
  = (fetch_count [] + Z.to_nat (3 + 1))%nat.
Proof.
  refine (proj2 (request_transient_failure_is_last_resort dev_env (always (Resolves r503))
                   "/users/1" no_options 3 [] (exhausted_failure "/users/1" r503)
                   _ _ _ _)).
  - lia.
  - reflexivity.
  - reflexivity.
Defined.

Lemma request_failure_retryable_witness :
  isRetryableError
    (Custom (ApiError 408 "Request Timeout" "Timed out" "/users/1")) = true.
Proof.
  refine (proj2 (request_failure_retryable dev_env (always (Resolves r408)) "/users/1"
                   no_options 3 [] _
                   [Fetch "http://localhost:7071/api/users/1" (fetch_init no_options)] _) _).
  - reflexivity.
  - right. exists r408. repeat split.
Defined.


Lemma facade_sends_json_witness :
  exists rest url init,
    [Fetch "http://localhost:7071/api/users//friends" (fetch_init no_options)] = [] ++ rest /\
    headers init = json_headers /\ Forall (only_fetches url init) rest.
Proof.
  refine (facade_sends_json dev_env (always (Resolves r200)) (GetFriends "") []
            (Returned user1) _ _).
  reflexivity.
Defined.

Lemma validateRequired_first_missing_witness :
  validateRequired [("title", VStr "X")] ["title"; "userId"; "genre"]%string []
  = (Thrown (Custom (ValidationError "userId is required" (Some "userId"%string))), []).
Proof.
  refine (proj1 (proj2 (validateRequired_first_missing [("title", VStr "X")]
                          ["title"; "userId"; "genre"]%string []))
            ["title"%string] "userId"%string ["genre"%string] _ _ _).
  - reflexivity.
  - constructor; [reflexivity | constructor].
  - reflexivity.
Defined.

Lemma user_lookups_remap_404_witness :
  getUser dev_env (always (Resolves r404)) "999" []
  = (Thrown (validation_error "User not found"),
     [Fetch "http://localhost:7071/api/users/999" (fetch_init no_options)]).
Proof.
  refine (proj2 (proj2 (proj2 (user_lookups_remap_404 dev_env (always (Resolves r404))
                                 "999" [] _))) r404 _ _ _).
  - discriminate.
  - reflexivity.
  - reflexivity.
  - reflexivity.
Defined.

Lemma createUser_conflict_witness :
  createUser dev_env (always (Resolves r409))
    [("username", VStr "existing"); ("email", VStr "existing@example.com");
     ("displayName", VStr "Existing User")] []
  = (Thrown (validation_error "Username or email already exists"),
     [Fetch "http://localhost:7071/api/users"
        (fetch_init (with_body "POST"
                       [("username", VStr "existing"); ("email", VStr "existing@example.com");
                        ("displayName", VStr "Existing User")]))]).
Proof.
  refine (proj1 (proj2 (createUser_conflict dev_env (always (Resolves r409)) _ [] _))
            r409 _ _ _ _).
  - repeat constructor.
  - reflexivity.
  - reflexivity.
  - reflexivity.
  - reflexivity.
Defined.

Lemma getRecommendations_without_user_witness :
  getRecommendations dev_env (always (Resolves r404)) None []
  = (Returned (VArr []),
     [Fetch "http://localhost:7071/api/series/recommendations" (fetch_init no_options)]).
Proof.
  refine (proj1 (getRecommendations_without_user dev_env (always (Resolves r404)) None []
                   _) "Not Found"%string "Resource not found: /series/recommendations"%string
            "/series/recommendations"%string _ _).
  - left. reflexivity.
  - reflexivity.
Defined.

Lemma encodeURIComponent_safe_witness : Js.encodeURIComponent "user-1" = "user-1"%string.
Proof.
  refine (proj1 (proj2 (encodeURIComponent_safe "user-1")) _). reflexivity.
Defined.

Lemma getErrorMessage_copy_witness :
  getErrorMessage (Custom (ApiError 503 "Service Unavailable" "upstream down" "/users/1"))
  = getErrorMessage (Custom (ApiError 503 "" "" "")).
Proof.
  refine (proj1 (proj2 getErrorMessage_copy) 503 _ _ _ _ _ _ _). reflexivity.
Defined.

Lemma execute_success_callback_throws_witness :
  UseApi.execute throwing_success (ret user1) initial_state []
  = (Thrown (new_Error "callback failed"),
     {| loading := false; error := Some "callback failed"%string; data := user1 |}, []).
Proof.
  refine (execute_success_callback_throws throwing_success (ret user1) initial_state []
            user1 [] (new_Error "callback failed") _ _); reflexivity.
Defined.

Lemma execute_reports_outage_witness :
  exists c,
    UseApi.execute no_callbacks (request dev_env offline "/users/1" no_options 3)
      initial_state []
    = (c,
       {| loading := false;
          error := Some "Unable to connect to the server. Please check your internet connection and try again."%string;
          data := VNull |},
       attempts_trace dev_env "http://localhost:7071/api/users/1" (fetch_init no_options) 0 4).
Proof.
  refine (proj1 (execute_reports_outage dev_env offline "/users/1" no_options no_callbacks
                   initial_state [] _) (TypeError "Failed to fetch") _).
  - intros i _. reflexivity.
  - left. reflexivity.
Defined.

Lemma query_rearms_after_outage_witness :
  UseQuery.fetchData default_query (request dev_env offline "/users/1" no_options 3) 0
    initial_state []
  = (Thrown (network_failure "/users/1"),
     {| loading := false; error := Some (getErrorMessage (network_failure "/users/1"));
        data := VNull |},
     attempts_trace dev_env "http://localhost:7071/api/users/1" (fetch_init no_options) 0 4
       ++ [SetTimeout 1000]).
Proof.
  refine (proj1 (query_rearms_after_outage dev_env offline "/users/1" no_options
                   default_query 0 initial_state [] (TypeError "Failed to fetch")
                   _ _ _ _) _).
  - intros i _. reflexivity.
  - left. reflexivity.
  - reflexivity.
  - lia.
  - reflexivity.
Defined.

Lemma login_failure_is_opaque_witness :
  AuthContext.login stringify_user1 storage_full dev_env (always (Resolves r200))
    "test" "secret" signed_out []
  = (Thrown (new_Error "Login failed"),
     {| AuthContext.user := user1; AuthContext.loading := false;
        AuthContext.storage := None |},
     [Fetch "http://localhost:7071/api/users/username/test" (fetch_init no_options)]).
Proof.
  refine (proj1 (proj2 (login_failure_is_opaque stringify_user1 storage_full dev_env
                          (always (Resolves r200)) "test" "secret" signed_out []))
            user1 _ (Foreign (PlainError "QuotaExceededError" "The quota has been exceeded."))
            _ _ _); reflexivity.
Defined.

Lemma login_succeeds_on_lookup_witness :
  AuthContext.login stringify_user1 storage_accepts dev_env (always (Resolves r200))
    "test" "secret" signed_out []
  = (Returned tt, signed_in,
     [Fetch "http://localhost:7071/api/users/username/test" (fetch_init no_options)]).
Proof.
  refine (proj2 (login_succeeds_on_lookup stringify_user1 storage_accepts dev_env
                   (always (Resolves r200)) "test" "secret" signed_out signed_in [] _) _).
  exists user1. repeat split.
Defined.

Lemma register_refuses_taken_name_witness :
  AuthContext.register stringify_user1 storage_accepts dev_env (always (Resolves r200))
    new_account 0 0 0 signed_out []
  = (Thrown (new_Error "Username already exists"), signed_out,
     [Fetch "http://localhost:7071/api/users/username/test" (fetch_init no_options)]).
Proof.
  refine (proj1 (register_refuses_taken_name stringify_user1 storage_accepts dev_env
                   (always (Resolves r200)) new_account 0 0 0 signed_out [])
            user1 _ _ _); reflexivity.
Defined.

Lemma register_creates_when_lookups_fail_witness :
  AuthContext.register stringify_user1 storage_accepts dev_env
    (scripted [Resolves r404; Resolves r404] (Resolves r200)) new_account 0 0 0
    signed_out []
  = (Returned tt, signed_in,
     [Fetch "http://localhost:7071/api/users/username/test" (fetch_init no_options);
      Fetch "http://localhost:7071/api/users/email/test%40example.com"
        (fetch_init no_options);
      Fetch "http://localhost:7071/api/users"
        (fetch_init (with_body "POST" (AuthContext.new_user_payload new_account 0 0 0)))]).
Proof.
  refine (proj1 (register_creates_when_lookups_fail stringify_user1 storage_accepts dev_env
                   (scripted [Resolves r404; Resolves r404] (Resolves r200))
                   new_account 0 0 0 signed_out []
                   (validation_error "User with this username not found")
                   (validation_error "User with this email not found")
                   [Fetch "http://localhost:7071/api/users/username/test"
                      (fetch_init no_options)]
                   [Fetch "http://localhost:7071/api/users/username/test"
                      (fetch_init no_options);
                    Fetch "http://localhost:7071/api/users/email/test%40example.com"
                      (fetch_init no_options)]
                   _ _) user1 _ _ _); reflexivity.
Defined.

Lemma session_restored_on_mount_witness :
  AuthContext.initializeAuth parse_user1
    {| AuthContext.user := VNull; AuthContext.loading := true;
       AuthContext.storage := Some "user1"%string |}
  = signed_in.
Proof.
  refine (proj1 (session_restored_on_mount stringify_user1 parse_user1 storage_accepts
                   dev_env (always (Resolves r200)) "test" "secret" signed_out signed_in []
                   [Fetch "http://localhost:7071/api/users/username/test"
                      (fetch_init no_options)] _) _ _).
  - reflexivity.
  - reflexivity.
  - discriminate.
Defined.
